(** * rfhub: the keyword API and the documentation blueprint

    A shallow embedding of [rfhub/blueprints/api/keywords.py] and of
    [rfhub/blueprints/doc/__init__.py].

    Both files are Flask view functions over an external keyword store
    ([kwdb]), an external URL builder ([url_for]) and Robot Framework's
    documentation formatters ([html_format], [DocToHtml]).  These
    collaborators are not code of the repository: the store is a record of
    functions and the others are section variables, so every theorem holds
    for all of them.

    Python [str] values are modelled as Rocq strings whose characters are
    code points below 128; on that range [lower], [upper] and [strip] below
    are exactly the methods of [str].  Logging is the only side effect of the
    view functions and is not modelled. *)

From stdpp Require Import gmap strings list sorting.
From Stdlib Require Import Ascii.

Set Default Proof Using "Type".

(** ** The methods of [str] used by the views *)

Module PyStr.

(** [str.isspace] on one character: TAB, LF, VT, FF, CR, the separators
    FS, GS, RS, US, and the space. *)
Definition is_space (c : ascii) : bool :=
  let n := nat_of_ascii c in
  ((9 <=? n) && (n <=? 13)) || ((28 <=? n) && (n <=? 32)).

Definition lower_char (c : ascii) : ascii :=
  let n := nat_of_ascii c in
  if (65 <=? n) && (n <=? 90) then ascii_of_nat (n + 32) else c.

Definition upper_char (c : ascii) : ascii :=
  let n := nat_of_ascii c in
  if (97 <=? n) && (n <=? 122) then ascii_of_nat (n - 32) else c.

Fixpoint map_chars (f : ascii → ascii) (s : string) : string :=
  match s with
  | EmptyString => EmptyString
  | String c s' => String (f c) (map_chars f s')
  end.

(** [s.lower()] and [s.upper()] *)
Definition lower : string → string := map_chars lower_char.
Definition upper : string → string := map_chars upper_char.

(** [s.replace(old, new)] for one-character [old] and [new] *)
Definition replace (old new : ascii) : string → string :=
  map_chars (λ c, if decide (c = old) then new else c).

Fixpoint lstrip (s : string) : string :=
  match s with
  | EmptyString => EmptyString
  | String c s' => if is_space c then lstrip s' else s
  end.

Fixpoint rstrip (s : string) : string :=
  match s with
  | EmptyString => EmptyString
  | String c s' =>
      match rstrip s' with
      | EmptyString => if is_space c then EmptyString else String c EmptyString
      | r => String c r
      end
  end.

(** [s.strip()] *)
Definition strip (s : string) : string := rstrip (lstrip s).

(** A string that does not start with a space. *)
Definition no_leading_space (s : string) : Prop :=
  match s with
  | EmptyString => True
  | String c _ => is_space c = false
  end.

(** [s.startswith(p)] *)
Fixpoint startswith (p s : string) : bool :=
  match p, s with
  | EmptyString, _ => true
  | String a p', String b s' => if decide (a = b) then startswith p' s' else false
  | String _ _, EmptyString => false
  end.

(** the slice [s[n:]] *)
Fixpoint slice_from (n : nat) (s : string) : string :=
  match n, s with
  | O, _ => s
  | S n', String _ s' => slice_from n' s'
  | S _, EmptyString => EmptyString
  end.

(** [s.split(sep)] for a one-character separator: never the empty list *)
Fixpoint split (sep : ascii) (s : string) : list string :=
  match s with
  | EmptyString => [EmptyString]
  | String c s' =>
      if decide (c = sep) then EmptyString :: split sep s'
      else match split sep s' with
           | w :: ws => String c w :: ws
           | [] => [String c EmptyString]
           end
  end.

(** [sep.join(l)] *)
Fixpoint join (sep : string) (l : list string) : string :=
  match l with
  | [] => ""
  | [w] => w
  | w :: ws => w +:+ sep +:+ join sep ws
  end.

(** truthiness of a [str] *)
Definition truthy (s : string) : bool :=
  match s with EmptyString => false | _ => true end.

(** [c in s] for one character *)
Fixpoint has_char (c : ascii) (s : string) : bool :=
  match s with
  | EmptyString => false
  | String d s' => if decide (c = d) then true else has_char c s'
  end.

(** One lower-case hexadecimal digit. *)
Definition hex_digit (n : nat) : ascii :=
  if n <? 10 then ascii_of_nat (48 + n) else ascii_of_nat (87 + n).

(** What [repr] writes for one character inside the quotes: the quote
    and the backslash get a backslash, TAB, LF and CR their letter, every
    other control character and DEL the form [\xhh]. *)
Definition repr_char (quote c : ascii) : string :=
  let n := nat_of_ascii c in
  if decide (c = quote ∨ c = "092"%char) then String "092" (String c "")
  else if decide (n = 9) then String "092" "t"
  else if decide (n = 10) then String "092" "n"
  else if decide (n = 13) then String "092" "r"
  else if (n <? 32) || (n =? 127)
       then String "092" (String "x" (String (hex_digit (n / 16))
                                         (String (hex_digit (n mod 16)) "")))
  else String c "".

Fixpoint repr_chars (quote : ascii) (s : string) : string :=
  match s with
  | EmptyString => EmptyString
  | String c s' => repr_char quote c +:+ repr_chars quote s'
  end.

(** [repr(s)]: in single quotes, unless [s] holds a single quote and no
    double quote. *)
Definition repr (s : string) : string :=
  let quote : ascii :=
    if has_char "039" s && negb (has_char "034" s) then "034"%char else "039"%char in
  String quote (repr_chars quote s +:+ String quote "").

End PyStr.

(** ** Exceptions, HTTP aborts and the outcome of a view function *)

(** A Python exception: one built from a message, or the [KeyError] of a
    missing string key.  [str_of_exn] is the text that [str(e)] gives: the
    message itself, and for a [KeyError] the [repr] of the key. *)
Inductive exn : Type :=
  | Exception (msg : string)
  | KeyError (key : string).

Definition str_of_exn (e : exn) : string :=
  match e with
  | Exception msg => msg
  | KeyError key => PyStr.repr key
  end.

(** What a call can do: return, leave through [flask.abort(code, description)],
    or leave through any other exception, which nothing in the views catches. *)
Inductive outcome (A : Type) : Type :=
  | Done (a : A)
  | Abort (code : nat) (description : string)
  | Raise (e : exn).
Arguments Done {A} a.
Arguments Abort {A} code description.
Arguments Raise {A} e.

(** Sequencing: the first abort or exception ends the view. *)
Global Instance outcome_bind : MBind outcome := λ A B k m,
  match m with
  | Done a => k a
  | Abort code description => Abort code description
  | Raise e => Raise e
  end.

(** A call of a collaborator that either raises or returns. *)
Definition call {A} (r : exn + A) : outcome A :=
  match r with
  | inl e => Raise e
  | inr a => Done a
  end.

(** The status line Flask answers with: 200 for a returned response, the
    code of an abort, 500 for an exception that escapes the view. *)
Definition status {A} (o : outcome A) : nat :=
  match o with
  | Done _ => 200
  | Abort code _ => code
  | Raise _ => 500
  end.

(** [request.args.get(key, default)] *)
Definition args_get (args : gmap string string) (key default : string) : string :=
  from_option id default (args !! key).

(** ** The keyword store

    The methods of [kwdb] the two files call.  An argument of type
    [option string] is a keyword argument that the caller may leave out. *)

(** A collection record; the views read [c["collection_id"]] and
    [c["name"]]. *)
Record collection : Type := Collection {
  coll_collection_id : string;
  coll_name : string;
  coll_doc_format : string;
  coll_doc : string
}.

(** One element of [kwdb.get_keywords(pattern)], unpacked by the loop of
    [get_library_keywords] into five variables. *)
Record keyword_row : Type := KeywordRow {
  keyword_collection_id : string;
  keyword_collection_name : string;
  keyword_name : string;
  keyword_doc : string;
  keyword_args : string
}.

(** One element of [kwdb.search(pattern, mode)]: the view reads the
    positions 0 to 3 of it. *)
Record search_hit : Type := SearchHit {
  hit_0 : string;
  hit_1 : string;
  hit_2 : string;
  hit_3 : string
}.

Record Kwdb : Type := {
  kwdb_get_keywords : string → exn + list keyword_row;
  kwdb_get_keyword : string → string → exn + option (gmap string string);
  kwdb_get_collections : option string → option string → exn + list collection;
  kwdb_search : string → string → exn + list search_hit
}.

(** [flask.current_app]: the API reads the attribute [kwdb], the
    documentation pages read [config['kwdb']]. *)
Record flask_app : Type := {
  app_kwdb : option Kwdb;
  app_config_kwdb : option Kwdb
}.

(** What [jsonify] is given. *)
Inductive response : Type :=
  | jsonify_keywords (keywords : list (gmap string string))
  | jsonify_keyword (keyword : gmap string string).

(** ** rfhub/blueprints/api/keywords.py *)

Module ApiEndpoint.
Section views.

(** [flask.url_for(endpoint, **values)] and [robot.utils.html_format] *)
Variable url_for : string → list (string * string) → string.
Variable html_format : string → exn + string.

(** [flask.current_app] and [flask.request.args] *)
Variable current_app : flask_app.
Variable args : gmap string string.

Definition all_fields : list string :=
  ["collection_id"; "library"; "name"; "synopsis"; "doc"; "htmldoc";
   "args"; "doc_keyword_url"; "api_keyword_url"; "api_library_url"].

(** The first line of the stripped documentation:
    [keyword_doc.strip().split("\n")[0]]. *)
Definition synopsis (keyword_doc : string) : string :=
  from_option id "" (head (PyStr.split "010" (PyStr.strip keyword_doc))).

(** The dictionary [field_mapping] the loop builds for one keyword. *)
Definition field_mapping (kw : keyword_row) : gmap string string :=
  <["collection_id" := keyword_collection_id kw]>
  (<["library" := keyword_collection_name kw]>
  (<["name" := keyword_name kw]>
  (<["synopsis" := synopsis (keyword_doc kw)]>
  (<["doc" := keyword_doc kw]>
  (<["args" := keyword_args kw]>
  (<["doc_keyword_url" :=
       url_for "doc.doc_for_library"
         [("collection_id", keyword_collection_id kw);
          ("keyword", keyword_name kw)]]>
  (<["api_keyword_url" :=
       url_for ".get_library_keyword"
         [("collection_id", keyword_collection_id kw);
          ("keyword", keyword_name kw)]]>
  (<["api_library_url" :=
       url_for ".get_library_keywords"
         [("collection_id", keyword_collection_id kw)]]> ∅)))))))).

(** The [try] around [html_format]: a failure becomes an inline error
    text. *)
Definition htmldoc (kw : keyword_row) : string :=
  match html_format (keyword_doc kw) with
  | inr html => html
  | inl e => "<p>Error generating documentation: " +:+ str_of_exn e +:+ "</p>"
  end.

(** One turn of [for field in fields_to_include]. *)
Definition include_field (kw : keyword_row)
    (data : gmap string string) (field : string) : gmap string string :=
  match field_mapping kw !! field with
  | Some value => <[field := value]> data
  | None =>
      if decide (field = "htmldoc") then <["htmldoc" := htmldoc kw]> data
      else data
  end.

(** The fields to include for a raw [fields] parameter. *)
Definition fields_to_include : list string :=
  let req_fields := PyStr.lower (PyStr.strip (args_get args "fields" "*")) in
  if decide (req_fields = "*") then all_fields
  else PyStr.strip <$> PyStr.split "," req_fields.

(** One turn of the loop over the rows of the store. *)
Definition append_keyword (collection_id : string)
    (result : list (gmap string string)) (kw : keyword_row)
    : list (gmap string string) :=
  if decide (collection_id = "" ∨ collection_id = keyword_collection_id kw)
  then result ++ [foldl (include_field kw) ∅ fields_to_include]
  else result.

Definition get_library_keywords (collection_id : string) : outcome response :=
  let query_pattern := PyStr.lower (PyStr.strip (args_get args "pattern" "*")) in
  match app_kwdb current_app with
  | None => Abort 500 "Internal server error: keyword database not configured."
  | Some kwdb =>
      keywords ← call (kwdb_get_keywords kwdb query_pattern);
      let result := foldl (append_keyword collection_id) [] keywords in
      Done (jsonify_keywords result)
  end.

Definition get_keywords : outcome response :=
  let collection_id := args_get args "collection_id" "" in
  get_library_keywords collection_id.

(** Truthiness of what [kwdb.get_keyword] returned: [None] and the empty
    dictionary are false. *)
Definition truthy (keyword_data : option (gmap string string))
    : option (gmap string string) :=
  match keyword_data with
  | Some d => if decide (d = ∅) then None else Some d
  | None => None
  end.

Definition get_library_keyword (collection_id keyword : string) : outcome response :=
  match app_kwdb current_app with
  | None => Abort 500 "Internal server error: keyword database not configured."
  | Some kwdb =>
      collections ← call (kwdb_get_collections kwdb
                            (Some (PyStr.lower (PyStr.strip collection_id))) None);
      collection_id ←
        match collections with
        | [c] => Done (coll_collection_id c)
        | _ :: _ :: _ => Abort 404 "Ambiguous collection identifier."
        | [] => Done collection_id
        end;
      keyword_data ←
        match kwdb_get_keyword kwdb collection_id keyword with
        | inr keyword_data => Done keyword_data
        | inl e => Abort 404 "Keyword not found or database error."
        end;
      match truthy keyword_data with
      | Some keyword_data =>
          match keyword_data !! "collection_id" with
          | Some cid =>
              Done (jsonify_keyword
                      (<["library_url" :=
                           url_for ".get_library" [("collection_id", cid)]]>
                         keyword_data))
          | None => Raise (KeyError "collection_id")
          end
      | None => Abort 404 "Keyword not found."
      end
  end.

(** *** Derived notions used to state the properties of the views *)

(** The value of every recognized field of one keyword: the dictionary
    [field_mapping] together with the [htmldoc] branch of the loop. *)
Definition full_mapping (kw : keyword_row) : gmap string string :=
  <["htmldoc" := htmldoc kw]> (field_mapping kw).

(** The object the loop builds for one keyword. *)
Definition keyword_object (kw : keyword_row)
    : gmap string string :=
  foldl (include_field kw) ∅ fields_to_include.

(** The test of the loop: no collection asked for, or this one. *)
Definition selected (collection_id : string) (kw : keyword_row) : Prop :=
  collection_id = "" ∨ collection_id = keyword_collection_id kw.

Global Instance selected_dec collection_id kw : Decision (selected collection_id kw).
Proof. unfold selected. apply _. Defined.

End views.
End ApiEndpoint.

(** ** rfhub/blueprints/doc/__init__.py *)

Module Doc.

(** One dictionary of the list [keywords] that [search] builds. *)
Record search_row : Type := SearchRow {
  row_collection_id : string;
  row_collection_name : string;
  row_name : string;
  row_synopsis : string;
  row_version : string;
  row_url : string;
  row_id : string
}.

(** The [data] argument of [render_template("search.html", data=...)]. *)
Record search_data : Type := SearchData {
  data_keywords : list search_row;
  data_version : string;
  data_pattern : string
}.

(** A call of [flask.render_template]: the template and what it is
    handed. *)
Inductive rendering : Type :=
  | render_template (template : string) (data : search_data).

(** [list.sort(key=...)]: ascending in the order of [str], and stable.
    A stable sort is determined by its input, so insertion from the right
    computes what Python's sort computes. *)
Fixpoint insert_by {A} (key : A → string) (x : A) (l : list A) : list A :=
  match l with
  | [] => [x]
  | y :: l' =>
      if String.leb (key x) (key y) then x :: l else y :: insert_by key x l'
  end.

Definition sort_by {A} (key : A → string) (l : list A) : list A :=
  foldr (insert_by key) [] l.

(** A call of the format converter, [DocToHtml(fmt)(doc)]. *)
Inductive converter_call : Type :=
  | DocToHtml_call (fmt doc : string).

Section views.

Variable url_for : string → list (string * string) → string.
(** [robot.libdocpkg.htmlutils.DocToHtml]: [DocToHtml fmt doc] is
    [DocToHtml(fmt)(doc)]. *)
Variable DocToHtml : string → string → exn + string.
(** [rfhub.version.__version__] *)
Variable __version__ : string.

Variable current_app : flask_app.
Variable args : gmap string string.

(** The head of [search]: the [name:] prefix selects the mode. *)
Definition search_mode (pattern : string) : string * string :=
  if PyStr.startswith "name:" pattern
  then (PyStr.strip (PyStr.slice_from 5 pattern), "name")
  else (pattern, "both").

(** One turn of [for word in pattern.split(" ")], on the pair of lists
    [(words, filters)]. *)
Definition scan_word (collections : list string)
    (acc : list string * list string) (word : string)
    : list string * list string :=
  let '(words, filters) := acc in
  if PyStr.startswith "in:" (PyStr.lower word)
  then (words,
        filters ++ filter (λ name, PyStr.startswith (PyStr.slice_from 3 word) name = true)
                          collections)
  else (words ++ [word], filters).

Definition scan_words (collections : list string) (pattern : string)
    : list string * list string :=
  foldl (scan_word collections) ([], []) (PyStr.split " " pattern).

(** One turn of the loop over the hits of the store. *)
Definition append_hit (filters : list string)
    (keywords : list search_row) (keyword : search_hit) : list search_row :=
  let collection_name := PyStr.lower (hit_1 keyword) in
  if decide (length filters = 0 ∨ collection_name ∈ filters) then
    let url := url_for ".doc_for_library"
                 [("collection_id", hit_0 keyword); ("keyword", hit_2 keyword)] in
    let row_id := "row-" +:+ PyStr.lower (hit_1 keyword) +:+ "." +:+
                  PyStr.replace " " "-" (PyStr.lower (hit_2 keyword)) in
    keywords ++ [SearchRow (hit_0 keyword) (hit_1 keyword) (hit_2 keyword)
                           (hit_3 keyword) __version__ url row_id]
  else keywords.

(** [current_app.config['kwdb']] *)
Definition config_kwdb : outcome Kwdb :=
  match app_config_kwdb current_app with
  | Some kwdb => Done kwdb
  | None => Raise (KeyError "kwdb")
  end.

Definition search : outcome rendering :=
  let pattern := PyStr.lower (PyStr.strip (args_get args "pattern" "*")) in
  kwdb ← config_kwdb;
  cs ← call (kwdb_get_collections kwdb None None);
  let collections := (λ c, PyStr.lower (coll_name c)) <$> cs in
  let '(pattern, mode) := search_mode pattern in
  let '(words, filters) := scan_words collections pattern in
  let pattern := PyStr.join " " words in
  kwdb ← config_kwdb;
  hits ← call (kwdb_search kwdb pattern mode);
  let keywords := foldl (append_hit filters) [] hits in
  let keywords := sort_by row_name keywords in
  Done (render_template "search.html"
          (SearchData keywords __version__ pattern)).

(** [doc_to_html], with the calls of the converter it makes. *)
Definition doc_to_html (doc : option string) (doc_format : option string)
    : list converter_call * outcome string :=
  match doc with
  | None | Some EmptyString => ([], Done "")
  | Some doc =>
      let fmt :=
        PyStr.upper (match doc_format with
                     | Some f => if PyStr.truthy f then f else "ROBOT"
                     | None => "ROBOT"
                     end) in
      ([DocToHtml_call fmt doc], call (DocToHtml fmt doc))
  end.

(** *** Derived notions used to state the properties of [search] *)

(** The dictionary [search] appends for one hit. *)
Definition make_row (keyword : search_hit) : search_row :=
  SearchRow (hit_0 keyword) (hit_1 keyword) (hit_2 keyword) (hit_3 keyword)
    __version__
    (url_for ".doc_for_library"
       [("collection_id", hit_0 keyword); ("keyword", hit_2 keyword)])
    ("row-" +:+ PyStr.lower (hit_1 keyword) +:+ "." +:+
     PyStr.replace " " "-" (PyStr.lower (hit_2 keyword))).

(** The test of the loop over the hits. *)
Definition kept (filters : list string) (keyword : search_hit) : Prop :=
  length filters = 0 ∨ PyStr.lower (hit_1 keyword) ∈ filters.

Global Instance kept_dec filters keyword : Decision (kept filters keyword).
Proof. unfold kept. apply _. Defined.

End views.

(** A word of the query that is an [in:] token. *)
Definition is_in_token (word : string) : Prop :=
  PyStr.startswith "in:" (PyStr.lower word) = true.

(** The collection names an [in:] token selects. *)
Definition token_matches (collections : list string) (word : string) : list string :=
  filter (λ name, PyStr.startswith (PyStr.slice_from 3 word) name = true) collections.

(** Ascending by keyword name, in the order of [str]. *)
Definition by_name (a b : search_row) : Prop :=
  String.le (row_name a) (row_name b).

End Doc.

(** ** rfhub/blueprints/doc/__init__.py: the pages other than the search *)

Module DocPages.

(** One element of [kwdb.get_keyword_data(collection_id)], unpacked by the
    loop of [doc_for_library] into [(keyword_id, name, args, doc)]; a
    documentation text may be [None]. *)
Record keyword_data_row : Type := KeywordDataRow {
  kd_keyword_id : string;
  kd_name : string;
  kd_args : string;
  kd_doc : option string
}.

(** A keyword of the navigation hierarchy, with the [url] key that
    [get_navpanel_data] sets. *)
Record hierarchy_keyword : Type := HierarchyKeyword {
  hk_name : string;
  hk_url : option string
}.

(** A library of the navigation hierarchy. *)
Record hierarchy_library : Type := HierarchyLibrary {
  hl_collection_id : string;
  hl_name : string;
  hl_keywords : list hierarchy_keyword;
  hl_url : option string
}.

(** A collection record after [result["url"] = url]. *)
Record collection_link : Type := CollectionLink {
  link_collection : collection;
  link_url : string
}.

(** The tuple [(name, args, doc_html, target)] that [doc_for_library]
    appends for one keyword. *)
Record library_keyword : Type := LibraryKeyword {
  lk_name : string;
  lk_args : string;
  lk_doc_html : string;
  lk_target : bool
}.

(** A dictionary whose values may be [None], as [kwdb.get_collection]
    returns it. *)
Abbreviation libdoc_dict := (gmap string (option string)).

(** The [data] dictionaries of the three templates. *)
Record home_data : Type := HomeData {
  home_libraries : list collection_link;
  home_version : string;
  home_libdoc : option libdoc_dict;
  home_hierarchy : list hierarchy_library;
  home_resource_files : list collection_link
}.

Record names_data : Type := NamesData {
  names_libraries : list collection_link;
  names_version : string;
  names_resource_files : list collection_link
}.

Record library_data : Type := LibraryData {
  library_keywords : list library_keyword;
  library_version : string;
  library_libdoc : libdoc_dict;
  library_hierarchy : list hierarchy_library;
  library_collection_id : string
}.

Inductive template_data : Type :=
  | data_home (d : home_data)
  | data_names (d : names_data)
  | data_library (d : library_data).

(** A call of [flask.render_template]. *)
Inductive rendering : Type :=
  | render_template (template : string) (data : template_data).

(** A computation that calls the format converter: the calls it made, in
    order, and its outcome. *)
Record traced (A : Type) : Type := Traced {
  calls : list Doc.converter_call;
  result : outcome A
}.
Arguments Traced {A} calls result.
Arguments calls {A} t.
Arguments result {A} t.

Global Instance traced_ret : MRet traced := λ A a, Traced [] (Done a).

(** Sequencing: the calls add up, the first abort or exception ends the
    computation. *)
Global Instance traced_bind : MBind traced := λ A B k m,
  match result m with
  | Done a => Traced (calls m ++ calls (k a)) (result (k a))
  | Abort code description => Traced (calls m) (Abort code description)
  | Raise e => Traced (calls m) (Raise e)
  end.

(** A step that does not call the converter. *)
Definition quiet {A} (o : outcome A) : traced A := Traced [] o.

(** [for x in xs: acc = body(acc, x)], stopping at the first exception. *)
Fixpoint for_each {A B} (body : B → A → traced B) (acc : B) (xs : list A) : traced B :=
  match xs with
  | [] => mret acc
  | x :: xs' => acc' ← body acc x; for_each body acc' xs'
  end.

Section views.

Variable url_for : string → list (string * string) → string.
Variable DocToHtml : string → string → exn + string.
Variable __version__ : string.

(** [json.loads] on the stored argument list.  The store keeps [args] as a
    JSON list of strings; the statement [", ".join(json.loads(args))]
    raises for anything else, which is the [exn] here. *)
Variable json_loads : string → exn + list string.

(** The methods of the store that the record [Kwdb] does not list, as
    functions of the store object. *)
Variable get_collection : Kwdb → string → exn + libdoc_dict.
Variable get_keyword_data : Kwdb → string → exn + list keyword_data_row.
Variable get_keyword_hierarchy : Kwdb → exn + list hierarchy_library.

Variable current_app : flask_app.

(** [get_collections(kwdb, libtype)]: the loop sets the [url] of each
    record. *)
Definition get_collections (kwdb : Kwdb) (libtype : string)
    : outcome (list collection_link) :=
  collections ← call (kwdb_get_collections kwdb None (Some libtype));
  Done (foldl (λ done result,
                 let url := url_for ".doc_for_library"
                              [("collection_id", coll_collection_id result)] in
                 done ++ [CollectionLink result url])
              [] collections).

(** The inner loop of [get_navpanel_data], over the keywords of one
    library. *)
Definition link_keywords (library : hierarchy_library)
    : list hierarchy_keyword :=
  foldl (λ done keyword,
           let url := url_for ".doc_for_library"
                        [("collection_id", hl_collection_id library);
                         ("keyword", hk_name keyword)] in
           done ++ [HierarchyKeyword (hk_name keyword) (Some url)])
        [] (hl_keywords library).

Definition get_navpanel_data (kwdb : Kwdb) : outcome (list hierarchy_library) :=
  data ← call (get_keyword_hierarchy kwdb);
  Done (foldl (λ done library,
                 let url := url_for ".doc_for_library"
                              [("collection_id", hl_collection_id library)] in
                 done ++ [HierarchyLibrary (hl_collection_id library) (hl_name library)
                            (link_keywords library) (Some url)])
              [] data).

Definition doc : outcome rendering :=
  kwdb ← Doc.config_kwdb current_app;
  libraries ← get_collections kwdb "library";
  resource_files ← get_collections kwdb "resource";
  hierarchy ← get_navpanel_data kwdb;
  Done (render_template "home.html"
          (data_home (HomeData libraries __version__ None hierarchy resource_files))).

Definition index : outcome rendering :=
  kwdb ← Doc.config_kwdb current_app;
  libraries ← get_collections kwdb "library";
  resource_files ← get_collections kwdb "resource";
  Done (render_template "libraryNames.html"
          (data_names (NamesData libraries __version__ resource_files))).

(** [libdoc.get("doc_format", "ROBOT")] *)
Definition lib_doc_format (libdoc : libdoc_dict) : option string :=
  from_option id (Some "ROBOT") (libdoc !! "doc_format").

(** One turn of the loop of [doc_for_library] over the keyword rows. *)
Definition append_keyword (doc_format keyword : option string)
    (keywords : list library_keyword) (row : keyword_data_row)
    : traced (list library_keyword) :=
  args_list ← quiet (call (json_loads (kd_args row)));
  let args := PyStr.join ", " args_list in
  doc_html ← (let '(cs, o) := Doc.doc_to_html DocToHtml (kd_doc row) doc_format in
              Traced cs o);
  let target := bool_decide (keyword = Some (kd_name row)) in
  mret (keywords ++ [LibraryKeyword (kd_name row) args doc_html target]).

Definition doc_for_library (collection_id : string) (keyword : option string)
    : traced rendering :=
  kwdb ← quiet (Doc.config_kwdb current_app);
  libdoc ← quiet (call (get_collection kwdb collection_id));
  let doc_format := lib_doc_format libdoc in
  rows ← quiet (call (get_keyword_data kwdb collection_id));
  keywords ← for_each (append_keyword doc_format keyword) [] rows;
  doc ← quiet (match libdoc !! "doc" with
               | Some doc => Done doc
               | None => Raise (KeyError "doc")
               end);
  doc_html ← (let '(cs, o) := Doc.doc_to_html DocToHtml doc doc_format in
              Traced cs o);
  let libdoc := <["doc" := Some doc_html]> libdoc in
  hierarchy ← quiet (get_navpanel_data kwdb);
  mret (render_template "library.html"
          (data_library
             (LibraryData keywords __version__ libdoc hierarchy collection_id))).

(** *** Derived notions used to state the properties of the pages *)

(** The format the converter is given for a library. *)
Definition converter_format (doc_format : option string) : string :=
  PyStr.upper (match doc_format with
               | Some f => if PyStr.truthy f then f else "ROBOT"
               | None => "ROBOT"
               end).

(** A text that reaches the converter: neither [None] nor empty. *)
Definition has_text (doc : option string) : Prop :=
  match doc with
  | Some (String _ _) => True
  | _ => False
  end.

Global Instance has_text_dec doc : Decision (has_text doc).
Proof. destruct doc as [[|? ?]|]; cbn; apply _. Defined.

(** The text of a documentation value, the empty string for [None]. *)
Definition text_of (doc : option string) : string := from_option id "" doc.

(** The converter part of one turn. *)
Definition converted (doc : option string) (doc_format : option string)
    : traced string :=
  let '(cs, o) := Doc.doc_to_html DocToHtml doc doc_format in Traced cs o.

(** What one keyword row contributes when its turn succeeds. *)
Definition entry_of (doc_format keyword : option string)
    (row : keyword_data_row) (entry : library_keyword) : Prop :=
  lk_name entry = kd_name row ∧
  lk_target entry = bool_decide (keyword = Some (kd_name row)) ∧
  (∃ args_list, json_loads (kd_args row) = inr args_list ∧
                lk_args entry = PyStr.join ", " args_list) ∧
  (if decide (has_text (kd_doc row))
   then DocToHtml (converter_format doc_format) (text_of (kd_doc row))
        = inr (lk_doc_html entry)
   else lk_doc_html entry = "").

(** The calls of the converter one keyword row stands for. *)
Definition calls_of (doc_format : option string) (doc : option string)
    : list Doc.converter_call :=
  if decide (has_text doc)
  then [Doc.DocToHtml_call (converter_format doc_format) (text_of doc)]
  else [].

End views.
End DocPages.

(** ** Derived notions about strings *)

(** The characters of a string, in order. *)
Definition chars (s : string) : list ascii := String.list_ascii_of_string s.

(** ** A small store for the examples *)

Module Demo.

Definition url_for (endpoint : string) (values : list (string * string)) : string :=
  endpoint +:+ "?" +:+ PyStr.join "&" ((λ kv, kv.1 +:+ "=" +:+ kv.2) <$> values).

(** A formatter that fails on one documentation text. *)
Definition html_format (doc : string) : exn + string :=
  if decide (doc = "*broken") then inl (Exception "unbalanced markup")
  else inr ("<p>" +:+ doc +:+ "</p>").

Definition DocToHtml (fmt doc : string) : exn + string :=
  if decide (fmt = "ROBOT") then inr ("<p>" +:+ doc +:+ "</p>")
  else inl (Exception ("Invalid documentation format " +:+ fmt)).

Definition builtin : collection := Collection "1" "BuiltIn" "ROBOT" "Standard keywords".
Definition selenium : collection := Collection "2" "SeleniumLibrary" "ROBOT" "Web testing".
Definition my_lib : collection := Collection "3" "My Lib" "ROBOT" "A resource file".
(** A resource file whose name is the identifier of another collection. *)
Definition one : collection := Collection "4" "1" "ROBOT" "A resource file".

Definition log : keyword_row :=
  KeywordRow "1" "BuiltIn" "Log"
    ("Logs the message." +:+ String "010" "Second line.") "[message, level]".
Definition click : keyword_row :=
  KeywordRow "2" "SeleniumLibrary" "Click Element" "*broken" "[locator]".
Definition open_page : keyword_row :=
  KeywordRow "3" "My Lib" "Open Page" "Opens the page." "[]".

(** [get_collections] matches the pattern against the lower-cased names;
    [get_keyword] knows the keywords by the identifier of their
    collection. *)
Definition kwdb_of (collections : list collection) : Kwdb := {|
  kwdb_get_keywords _ := inr [log; click; open_page];
  kwdb_get_keyword collection_id keyword :=
    if decide (keyword = "Crash") then inl (Exception "database is locked")
    else if decide (collection_id = "1" ∧ keyword = "Log") then
      inr (Some (<["collection_id" := "1"]> (<["name" := "Log"]> ∅)))
    else if decide (collection_id = "4" ∧ keyword = "Log") then
      inr (Some (<["collection_id" := "4"]> (<["name" := "Log"]> ∅)))
    else inr None;
  kwdb_get_collections pattern _ :=
    inr (match pattern with
         | Some p => filter (λ c, PyStr.lower (coll_name c) = p) collections
         | None => collections
         end);
  kwdb_search _ _ :=
    inr (filter (λ hit, hit_1 hit ∈ coll_name <$> collections)
           [SearchHit "2" "SeleniumLibrary" "Click Element" "Clicks.";
            SearchHit "3" "My Lib" "Click Here" "Clicks here.";
            SearchHit "1" "BuiltIn" "Click" "Not really."])
|}.

Definition kwdb : Kwdb := kwdb_of [builtin; selenium; my_lib].

Definition app : flask_app :=
  {| app_kwdb := Some kwdb; app_config_kwdb := Some kwdb |}.

(** A store without the standard library. *)
Definition kwdb_small : Kwdb := kwdb_of [selenium; my_lib].

Definition app_small : flask_app :=
  {| app_kwdb := Some kwdb_small; app_config_kwdb := Some kwdb_small |}.

(** The same store with the resource file named like an identifier. *)
Definition kwdb_clash : Kwdb := kwdb_of [builtin; selenium; my_lib; one].

Definition app_clash : flask_app :=
  {| app_kwdb := Some kwdb_clash; app_config_kwdb := Some kwdb_clash |}.

End Demo.

(** ** A small store for the examples of the library pages *)

Module DemoPages.

(** The JSON text of the argument list of [Log]. *)
Definition log_args : string :=
  "[" +:+ String "034" "message" +:+ String "034" ", " +:+
  String "034" "level" +:+ String "034" "]".

(** [json.loads] on the two argument lists of the example store. *)
Definition json_loads (s : string) : exn + list string :=
  if decide (s = "[]") then inr []
  else if decide (s = log_args) then inr ["message"; "level"]
  else inl (Exception "Expecting value").

(** The standard library is in the native markup; the resource file names
    a format that the converter does not know, and has no text. *)
Definition builtin_libdoc : DocPages.libdoc_dict :=
  <["collection_id" := Some "1"]> (<["name" := Some "BuiltIn"]>
  (<["doc" := Some "Standard keywords"]> (<["doc_format" := Some "robot"]> ∅))).

Definition my_lib_libdoc : DocPages.libdoc_dict :=
  <["collection_id" := Some "3"]> (<["name" := Some "My Lib"]>
  (<["doc" := None]> (<["doc_format" := Some "md"]> ∅))).

Definition get_collection (kwdb : Kwdb) (collection_id : string)
    : exn + DocPages.libdoc_dict :=
  if decide (collection_id = "1") then inr builtin_libdoc
  else if decide (collection_id = "3") then inr my_lib_libdoc
  else inl (Exception "no such collection").

Definition builtin_rows : list DocPages.keyword_data_row :=
  [DocPages.KeywordDataRow "10" "Log" log_args (Some "Logs the message.");
   DocPages.KeywordDataRow "11" "No Operation" "[]" None;
   DocPages.KeywordDataRow "12" "Comment" "[]" (Some "")].

Definition my_lib_rows : list DocPages.keyword_data_row :=
  [DocPages.KeywordDataRow "30" "Open Page" "[]" (Some "Opens the page.")].

Definition get_keyword_data (kwdb : Kwdb) (collection_id : string)
    : exn + list DocPages.keyword_data_row :=
  if decide (collection_id = "1") then inr builtin_rows
  else if decide (collection_id = "3") then inr my_lib_rows
  else inr [].

Definition get_keyword_hierarchy (kwdb : Kwdb) : exn + list DocPages.hierarchy_library :=
  inr [DocPages.HierarchyLibrary "1" "BuiltIn"
         [DocPages.HierarchyKeyword "Log" None;
          DocPages.HierarchyKeyword "No Operation" None] None].

(** The navigation panel of the example store. *)
Definition hierarchy : list DocPages.hierarchy_library :=
  [DocPages.HierarchyLibrary "1" "BuiltIn"
     [DocPages.HierarchyKeyword "Log"
        (Some ".doc_for_library?collection_id=1&keyword=Log");
      DocPages.HierarchyKeyword "No Operation"
        (Some ".doc_for_library?collection_id=1&keyword=No Operation")]
     (Some ".doc_for_library?collection_id=1")].

(** The collections of the example store with their links; the example
    store gives all of them for every type. *)
Definition links : list DocPages.collection_link :=
  [DocPages.CollectionLink Demo.builtin ".doc_for_library?collection_id=1";
   DocPages.CollectionLink Demo.selenium ".doc_for_library?collection_id=2";
   DocPages.CollectionLink Demo.my_lib ".doc_for_library?collection_id=3"].

Definition doc_for_library :=
  DocPages.doc_for_library Demo.url_for Demo.DocToHtml "1.0" json_loads
    get_collection get_keyword_data get_keyword_hierarchy Demo.app.

(** The page of the standard library, with [Log] as the target. *)
Definition builtin_page : DocPages.library_data :=
  DocPages.LibraryData
    [DocPages.LibraryKeyword "Log" "message, level" "<p>Logs the message.</p>" true;
     DocPages.LibraryKeyword "No Operation" "" "" false;
     DocPages.LibraryKeyword "Comment" "" "" false]
    "1.0"
    (<["doc" := Some "<p>Standard keywords</p>"]> builtin_libdoc)
    hierarchy "1".

End DemoPages.

(** ** Examples: the model on concrete inputs *)

Example strip_example :
  PyStr.strip ("  name, Doc " +:+ String "010" "") = "name, Doc".
Proof. reflexivity. Qed.

Example split_example :
  PyStr.split "," "name,,doc," = ["name"; ""; "doc"; ""].
Proof. reflexivity. Qed.

Example split_empty : PyStr.split "," "" = [""].
Proof. reflexivity. Qed.

Example lower_example : PyStr.lower "In:BuiltIn Click_9" = "in:builtin click_9".
Proof. reflexivity. Qed.

Example join_example : PyStr.join " " ["a"; ""; "b"] = "a  b".
Proof. reflexivity. Qed.

Example synopsis_example :
  ApiEndpoint.synopsis (keyword_doc Demo.log) = "Logs the message.".
Proof. reflexivity. Qed.

Example get_keywords_example :
  ApiEndpoint.get_keywords Demo.url_for Demo.html_format Demo.app
    (<["fields" := " Name, HTMLDOC ,bogus"]> (<["collection_id" := "2"]> ∅))
  = Done (jsonify_keywords
            [<["name" := "Click Element"]>
             (<["htmldoc" := "<p>Error generating documentation: unbalanced markup</p>"]> ∅)]).
Proof. vm_compute. reflexivity. Qed.

Example get_library_keyword_example :
  ApiEndpoint.get_library_keyword Demo.url_for Demo.app "BuiltIn" "Log"
  = Done (jsonify_keyword
            (<["library_url" := ".get_library?collection_id=1"]>
             (<["collection_id" := "1"]> (<["name" := "Log"]> ∅)))).
Proof. vm_compute. reflexivity. Qed.

Example search_example :
  Doc.search Demo.url_for "1.0" Demo.app (<["pattern" := " in:Sel in:my CLICK "]> ∅)
  = Done (Doc.render_template "search.html"
      (Doc.SearchData
         [Doc.SearchRow "2" "SeleniumLibrary" "Click Element" "Clicks." "1.0"
            ".doc_for_library?collection_id=2&keyword=Click Element"
            "row-seleniumlibrary.click-element";
          Doc.SearchRow "3" "My Lib" "Click Here" "Clicks here." "1.0"
            ".doc_for_library?collection_id=3&keyword=Click Here"
            "row-my lib.click-here"]
         "1.0" "click")).
Proof. vm_compute. reflexivity. Qed.

Example doc_to_html_example :
  Doc.doc_to_html Demo.DocToHtml (Some "Logs.") (Some "robot")
  = ([Doc.DocToHtml_call "ROBOT" "Logs."], Done "<p>Logs.</p>").
Proof. reflexivity. Qed.

Example doc_to_html_default_format :
  Doc.doc_to_html Demo.DocToHtml (Some "Logs.") None
  = ([Doc.DocToHtml_call "ROBOT" "Logs."], Done "<p>Logs.</p>").
Proof. reflexivity. Qed.

Example doc_to_html_bad_format :
  Doc.doc_to_html Demo.DocToHtml (Some "Logs.") (Some "md")
  = ([Doc.DocToHtml_call "MD" "Logs."],
     Raise (Exception "Invalid documentation format MD")).
Proof. reflexivity. Qed.

Example doc_for_library_example :
  DemoPages.doc_for_library "1" (Some "Log") =
  DocPages.Traced
    [Doc.DocToHtml_call "ROBOT" "Logs the message.";
     Doc.DocToHtml_call "ROBOT" "Standard keywords"]
    (Done (DocPages.render_template "library.html"
             (DocPages.data_library DemoPages.builtin_page))).
Proof. vm_compute. reflexivity. Qed.

Example doc_for_library_unknown_format :
  DemoPages.doc_for_library "3" None =
  DocPages.Traced [Doc.DocToHtml_call "MD" "Opens the page."]
    (Raise (Exception "Invalid documentation format MD")).
Proof. vm_compute. reflexivity. Qed.

Example doc_for_library_unknown_collection :
  DemoPages.doc_for_library "9" None =
  DocPages.Traced [] (Raise (Exception "no such collection")).
Proof. vm_compute. reflexivity. Qed.

Example index_example :
  DocPages.index Demo.url_for "1.0" Demo.app =
  Done (DocPages.render_template "libraryNames.html"
          (DocPages.data_names
             (DocPages.NamesData DemoPages.links "1.0" DemoPages.links))).
Proof. vm_compute. reflexivity. Qed.

Example doc_example :
  DocPages.doc Demo.url_for "1.0" DemoPages.get_keyword_hierarchy Demo.app =
  Done (DocPages.render_template "home.html"
          (DocPages.data_home
             (DocPages.HomeData DemoPages.links "1.0" None
                DemoPages.hierarchy DemoPages.links))).
Proof. vm_compute. reflexivity. Qed.

Example repr_plain : PyStr.repr "collection_id" = "'collection_id'".
Proof. reflexivity. Qed.

Example repr_single_quote :
  PyStr.repr "it's" = String "034" "it's" +:+ String "034" "".
Proof. reflexivity. Qed.

Example repr_both_quotes :
  PyStr.repr ("it's " +:+ String "034" "a" +:+ String "034" "")
  = "'it" +:+ String "092" "'s " +:+ String "034" "a" +:+ String "034" "'".
Proof. reflexivity. Qed.

Example repr_control :
  PyStr.repr (String "010" (String "001" (String "092" "")))
  = "'" +:+ String "092" "n" +:+ String "092" "x01" +:+
    String "092" (String "092" "'").
Proof. reflexivity. Qed.

Example htmldoc_key_error :
  ApiEndpoint.htmldoc (λ _, inl (KeyError "it's"))
    (KeywordRow "1" "BuiltIn" "Log" "Logs." "[]")
  = "<p>Error generating documentation: " +:+ String "034" "it's" +:+
    String "034" "</p>".
Proof. reflexivity. Qed.

Example sort_by_example :
  Doc.sort_by fst [("b", 1); ("a", 2); ("b", 3); ("B", 4); ("a", 5)]
  = [("B", 4); ("a", 2); ("a", 5); ("b", 1); ("b", 3)].
Proof. reflexivity. Qed.

(** ** Facts about the methods of [str] *)

Section pystr_facts.
Import PyStr.

Lemma is_space_lower_char c : is_space (lower_char c) = is_space c.
Proof. by destruct c as [[] [] [] [] [] [] [] []]. Qed.

Lemma lower_char_idemp c : lower_char (lower_char c) = lower_char c.
Proof. by destruct c as [[] [] [] [] [] [] [] []]. Qed.

Lemma lower_idemp s : lower (lower s) = lower s.
Proof.
  induction s as [|c s IH]; [done|].
  cbn [lower map_chars] in *. by rewrite lower_char_idemp, IH.
Qed.

Lemma lstrip_lower s : lstrip (lower s) = lower (lstrip s).
Proof.
  induction s as [|c s IH]; [done|].
  cbn [lower map_chars lstrip] in *. rewrite is_space_lower_char.
  by destruct (is_space c).
Qed.

Lemma rstrip_lower s : rstrip (lower s) = lower (rstrip s).
Proof.
  induction s as [|c s IH]; [done|].
  cbn [lower map_chars rstrip] in *. rewrite IH, is_space_lower_char.
  destruct (rstrip s); cbn [map_chars]; [|done].
  by destruct (is_space c).
Qed.

(** Lower-casing and stripping commute. *)
Lemma strip_lower s : strip (lower s) = lower (strip s).
Proof. unfold strip. by rewrite lstrip_lower, rstrip_lower. Qed.

Lemma rstrip_idemp s : rstrip (rstrip s) = rstrip s.
Proof.
  induction s as [|c s IH]; [done|].
  cbn [rstrip]. destruct (rstrip s) as [|d r] eqn:Hr.
  - destruct (is_space c) eqn:Hc; [done|]. cbn [rstrip]. by rewrite Hc.
  - cbn [rstrip]. cbn [rstrip] in IH. by rewrite IH.
Qed.

Lemma lstrip_no_leading_space s : no_leading_space (lstrip s).
Proof.
  induction s as [|c s IH]; [done|].
  cbn [lstrip]. by destruct (is_space c) eqn:Hc.
Qed.

Lemma rstrip_no_leading_space s : no_leading_space s → no_leading_space (rstrip s).
Proof.
  destruct s as [|c s]; [done|]. cbn [rstrip no_leading_space]. intros Hc.
  destruct (rstrip s); by rewrite ?Hc.
Qed.

Lemma lstrip_id s : no_leading_space s → lstrip s = s.
Proof. destruct s as [|c s]; [done|]. cbn. by intros ->. Qed.

Lemma strip_idemp s : strip (strip s) = strip s.
Proof.
  unfold strip.
  rewrite (lstrip_id (rstrip (lstrip s))), rstrip_idemp; [done|].
  apply rstrip_no_leading_space, lstrip_no_leading_space.
Qed.

(** What the views do to a raw parameter is idempotent. *)
Lemma lower_strip_idemp s : lower (strip (lower (strip s))) = lower (strip s).
Proof. by rewrite <-strip_lower, lower_idemp, strip_lower, strip_idemp. Qed.

Lemma split_nonempty sep s : split sep s ≠ [].
Proof.
  induction s as [|c s IH]; [done|].
  cbn [split]. case_decide; [done|]. by destruct (split sep s).
Qed.

End pystr_facts.

(** ** The keyword list of the API *)

Section api_facts.
Import ApiEndpoint.

Variable url_for : string → list (string * string) → string.
Variable html_format : string → exn + string.

Local Abbreviation full_mapping := (full_mapping url_for html_format).
Local Abbreviation keyword_object := (keyword_object url_for html_format).

Lemma field_mapping_htmldoc kw : field_mapping url_for kw !! "htmldoc" = None.
Proof. unfold field_mapping. by rewrite !lookup_insert_ne. Qed.

Lemma dom_full_mapping kw : dom (full_mapping kw) = list_to_set all_fields.
Proof.
  unfold full_mapping, field_mapping, all_fields.
  rewrite !dom_insert_L, dom_empty_L. cbn [list_to_set]. set_solver.
Qed.

Lemma include_field_full kw data field :
  include_field url_for html_format kw data field =
  match full_mapping kw !! field with
  | Some value => <[field := value]> data
  | None => data
  end.
Proof.
  unfold include_field, full_mapping.
  destruct (decide (field = "htmldoc")) as [->|Hne].
  - by rewrite field_mapping_htmldoc, lookup_insert_eq.
  - rewrite lookup_insert_ne by done.
    by destruct (field_mapping url_for kw !! field).
Qed.

Lemma foldl_include_field_lookup kw fields data f :
  foldl (include_field url_for html_format kw) data fields !! f =
  if decide (f ∈ fields)
  then match full_mapping kw !! f with Some v => Some v | None => data !! f end
  else data !! f.
Proof.
  revert data. induction fields as [|g fields IH]; intros data; cbn [foldl].
  - rewrite decide_False; [done|]. apply not_elem_of_nil.
  - rewrite IH, include_field_full.
    destruct (decide (f = g)) as [->|Hne].
    + rewrite (decide_True (P := g ∈ g :: fields)) by (by apply elem_of_cons; left).
      destruct (full_mapping kw !! g) eqn:Hg.
      * rewrite lookup_insert_eq. by case_decide.
      * by case_decide.
    + assert (∀ d, (match full_mapping kw !! g with
                    | Some value => <[g := value]> d | None => d end) !! f = d !! f)
        as ->.
      { intros d. destruct (full_mapping kw !! g); [|done].
        by rewrite lookup_insert_ne. }
      destruct (decide (f ∈ fields)) as [Hin|Hin].
      * rewrite decide_True; [done|]. by apply elem_of_cons; right.
      * rewrite decide_False; [done|]. rewrite elem_of_cons. by intros [?|?].
Qed.

(** An object holds, of the recognized fields, those that were asked
    for, each with the value of its keyword. *)
Lemma keyword_object_lookup args kw f :
  keyword_object args kw !! f =
  if decide (f ∈ fields_to_include args) then full_mapping kw !! f else None.
Proof.
  unfold keyword_object. rewrite foldl_include_field_lookup, lookup_empty.
  case_decide; [|done]. by destruct (full_mapping kw !! f).
Qed.

Lemma keyword_object_dom args kw :
  dom (keyword_object args kw) =
  list_to_set (filter (λ f, f ∈ all_fields) (fields_to_include args)).
Proof.
  apply set_eq. intros f.
  rewrite elem_of_dom, keyword_object_lookup, elem_of_list_to_set, list_elem_of_filter.
  rewrite <-(elem_of_list_to_set (C := gset string) f all_fields).
  rewrite <-(dom_full_mapping kw), elem_of_dom.
  case_decide as Hin; [tauto|]. split; [by intros [? ?]|tauto].
Qed.

Lemma keyword_object_subseteq args kw : keyword_object args kw ⊆ full_mapping kw.
Proof.
  apply map_subseteq_spec. intros f v. rewrite keyword_object_lookup.
  by case_decide.
Qed.

Lemma foldl_append_keyword args collection_id kws acc :
  foldl (append_keyword url_for html_format args collection_id) acc kws =
  acc ++ (keyword_object args <$> filter (selected collection_id) kws).
Proof.
  revert acc. induction kws as [|kw kws IH]; intros acc; cbn [foldl].
  - by rewrite filter_nil, fmap_nil, app_nil_r.
  - rewrite IH. unfold append_keyword. rewrite filter_cons.
    repeat case_decide; unfold selected in *; try done.
    by rewrite fmap_cons, <-app_assoc.
Qed.

(** With a store attached that answers, the view returns one object for
    each selected row, in the order of the store. *)
Lemma get_library_keywords_done app args collection_id kwdb kws :
  app_kwdb app = Some kwdb →
  kwdb_get_keywords kwdb (PyStr.lower (PyStr.strip (args_get args "pattern" "*")))
    = inr kws →
  get_library_keywords url_for html_format app args collection_id =
  Done (jsonify_keywords
          (keyword_object args <$> filter (selected collection_id) kws)).
Proof.
  intros Happ Hkws. unfold get_library_keywords. rewrite Happ, Hkws. cbn.
  by rewrite foldl_append_keyword.
Qed.

Lemma full_mapping_unrecognized kw f : f ∉ all_fields → full_mapping kw !! f = None.
Proof.
  intros Hf. apply not_elem_of_dom. rewrite dom_full_mapping.
  by rewrite elem_of_list_to_set.
Qed.

Lemma star_unrecognized : "*" ∉ all_fields.
Proof.
  intros H. unfold all_fields in H.
  repeat (apply elem_of_cons in H as [H|H]; [discriminate H|]).
  by apply elem_of_nil in H.
Qed.

Lemma args_get_insert_eq (args : gmap string string) key value default :
  args_get (<[key := value]> args) key default = value.
Proof. unfold args_get. by rewrite lookup_insert_eq. Qed.

Lemma args_get_insert_ne (args : gmap string string) key key' value default :
  key ≠ key' →
  args_get (<[key := value]> args) key' default = args_get args key' default.
Proof. intros Hne. unfold args_get. by rewrite lookup_insert_ne. Qed.

(** The view reads its arguments through the normalised [pattern] and
    [fields] only. *)
Lemma get_library_keywords_ext app args args' collection_id :
  args_get args "pattern" "*" = args_get args' "pattern" "*" →
  PyStr.lower (PyStr.strip (args_get args "fields" "*")) =
    PyStr.lower (PyStr.strip (args_get args' "fields" "*")) →
  get_library_keywords url_for html_format app args collection_id =
  get_library_keywords url_for html_format app args' collection_id.
Proof.
  intros Hpattern Hfields.
  assert (fields_to_include args = fields_to_include args') as Hinc.
  { unfold fields_to_include. by rewrite Hfields. }
  unfold get_library_keywords. rewrite Hpattern.
  destruct (app_kwdb app) as [kwdb|]; [|done].
  destruct (kwdb_get_keywords kwdb _) as [e|kws]; [done|]. cbn.
  rewrite !foldl_append_keyword. unfold ApiEndpoint.keyword_object.
  by rewrite Hinc.
Qed.

End api_facts.

(** ** Properties of the keyword list *)

Section api_keyword_list.
Import ApiEndpoint.

Variable url_for : string → list (string * string) → string.
Variable html_format : string → exn + string.

Local Abbreviation full_mapping := (full_mapping url_for html_format).
Local Abbreviation keyword_object := (keyword_object url_for html_format).
Local Abbreviation get_library_keywords := (get_library_keywords url_for html_format).

(** C1 (amended).  With a store attached that answers the pattern, the
    result holds one object for each row that passes the collection filter,
    in the order of the store; the keys of each object are exactly the
    requested field names that are recognized (a requested name outside the
    recognized set is left out), each with the value of its keyword; and
    when the [fields] parameter is the star the keys are all ten recognized
    fields. *)
Theorem get_library_keywords_fields app args collection_id kwdb kws :
  app_kwdb app = Some kwdb →
  kwdb_get_keywords kwdb (PyStr.lower (PyStr.strip (args_get args "pattern" "*")))
    = inr kws →
  ∃ objs,
    get_library_keywords app args collection_id = Done (jsonify_keywords objs) ∧
    Forall2 (λ kw obj,
               dom obj = list_to_set (filter (λ f, f ∈ all_fields) (fields_to_include args)) ∧
               obj ⊆ full_mapping kw)
            (filter (selected collection_id) kws) objs ∧
    (PyStr.lower (PyStr.strip (args_get args "fields" "*")) = "*" →
     Forall (λ obj, dom obj = list_to_set all_fields) objs).
Proof.
  intros Happ Hkws. eexists. split; [by eapply get_library_keywords_done|].
  split.
  - apply Forall2_fmap_r, Forall_Forall2_diag, Forall_forall. intros kw _.
    split; [apply keyword_object_dom|apply keyword_object_subseteq].
  - intros Hstar. apply Forall_fmap, Forall_forall. intros kw _. cbn.
    rewrite keyword_object_dom. unfold fields_to_include.
    by rewrite Hstar, decide_True by done.
Qed.

(** C3.  A selected keyword whose HTML rendering raises, in a request that
    asks for [htmldoc], still has its object in the list, with the inline
    error text as [htmldoc] and every other field as for any keyword; the
    objects before and after it are those of the other rows alone; and the
    status is 200. *)
Theorem htmldoc_failure_is_local app args collection_id kwdb before kw after e :
  app_kwdb app = Some kwdb →
  kwdb_get_keywords kwdb (PyStr.lower (PyStr.strip (args_get args "pattern" "*")))
    = inr (before ++ kw :: after) →
  selected collection_id kw →
  "htmldoc" ∈ fields_to_include args →
  html_format (keyword_doc kw) = inl e →
  status (get_library_keywords app args collection_id) = 200 ∧
  ∃ obj,
    get_library_keywords app args collection_id =
      Done (jsonify_keywords
              ((keyword_object args <$> filter (selected collection_id) before)
               ++ obj ::
               (keyword_object args <$> filter (selected collection_id) after))) ∧
    obj !! "htmldoc" =
      Some ("<p>Error generating documentation: " +:+ str_of_exn e +:+ "</p>") ∧
    ∀ f, f ≠ "htmldoc" →
      obj !! f = if decide (f ∈ fields_to_include args)
                 then field_mapping url_for kw !! f else None.
Proof.
  intros Happ Hkws Hsel Hreq Hfail.
  rewrite (get_library_keywords_done _ _ _ _ _ _ _ Happ Hkws).
  split; [done|]. exists (keyword_object args kw). split; [|split].
  - by rewrite filter_app, filter_cons_True, fmap_app, fmap_cons.
  - rewrite keyword_object_lookup, decide_True by done.
    unfold ApiEndpoint.full_mapping, htmldoc. by rewrite lookup_insert_eq, Hfail.
  - intros f Hf. rewrite keyword_object_lookup. case_decide; [|done].
    unfold ApiEndpoint.full_mapping. by rewrite lookup_insert_ne.
Qed.

(** C10.  The [fields] parameter is stripped and lower-cased before it is
    matched: two parameters that differ in letter case only, or in
    surrounding white space only, give the same result.  With a store
    attached that answers, the view returns (status 200) and every object
    holds exactly this: when the stripped, lower-cased parameter is the
    star, every recognized field; otherwise the recognized fields whose
    name is one of its comma-separated, stripped parts.  A name outside the
    recognized set is in no object, and neither is a field that was not
    asked for. *)
Theorem fields_parameter_normalised app args collection_id fields fields' :
  PyStr.lower fields = PyStr.lower fields' →
  get_library_keywords app (<["fields" := fields]> args) collection_id =
    get_library_keywords app (<["fields" := fields']> args) collection_id ∧
  get_library_keywords app (<["fields" := fields]> args) collection_id =
    get_library_keywords app
      (<["fields" := PyStr.lower (PyStr.strip fields)]> args) collection_id ∧
  ∀ kwdb kws,
    app_kwdb app = Some kwdb →
    kwdb_get_keywords kwdb (PyStr.lower (PyStr.strip (args_get args "pattern" "*")))
      = inr kws →
    ∃ objs,
      get_library_keywords app (<["fields" := fields]> args) collection_id
        = Done (jsonify_keywords objs) ∧
      status (get_library_keywords app (<["fields" := fields]> args) collection_id)
        = 200 ∧
      Forall2 (λ kw obj, ∀ f,
                 (obj !! f =
                  if decide (PyStr.lower (PyStr.strip fields) = "*" ∨
                             f ∈ PyStr.strip <$>
                                 PyStr.split "," (PyStr.lower (PyStr.strip fields)))
                  then full_mapping kw !! f else None) ∧
                 (f ∉ all_fields → obj !! f = None) ∧
                 (f ∈ all_fields →
                  f ∈ PyStr.strip <$> PyStr.split "," (PyStr.lower (PyStr.strip fields)) →
                  obj !! f = full_mapping kw !! f))
              (filter (selected collection_id) kws) objs.
Proof.
  intros Hcase. split; [|split].
  - apply get_library_keywords_ext.
    + by rewrite !args_get_insert_ne.
    + rewrite !args_get_insert_eq, <-!strip_lower. by rewrite Hcase.
  - apply get_library_keywords_ext.
    + by rewrite !args_get_insert_ne.
    + by rewrite !args_get_insert_eq, lower_strip_idemp.
  - intros kwdb kws Happ Hkws.
    assert (get_library_keywords app (<["fields" := fields]> args) collection_id =
            Done (jsonify_keywords
                    (keyword_object (<["fields" := fields]> args) <$>
                     filter (selected collection_id) kws))) as Hview.
    { eapply get_library_keywords_done; [done|]. by rewrite args_get_insert_ne. }
    eexists. split; [exact Hview|]. split; [by rewrite Hview|].
    apply Forall2_fmap_r, Forall_Forall2_diag, Forall_forall. intros kw _ f.
    rewrite keyword_object_lookup. split; [|split].
    + unfold fields_to_include. rewrite args_get_insert_eq.
      destruct (decide (PyStr.lower (PyStr.strip fields) = "*")) as [Hstar|Hstar].
      * rewrite (decide_True (P := _ ∨ _)) by (by left).
        case_decide as Hin; [done|].
        symmetry. apply full_mapping_unrecognized. exact Hin.
      * destruct (decide (f ∈ PyStr.strip <$>
                            PyStr.split "," (PyStr.lower (PyStr.strip fields))))
          as [Hin|Hin].
        -- by rewrite (decide_True (P := _ ∨ _)) by (by right).
        -- rewrite (decide_False (P := _ ∨ _)); [done|]. by intros [?|?].
    + intros Hf. case_decide; [|done]. by apply full_mapping_unrecognized.
    + intros Hf Hreq. rewrite decide_True; [done|].
      unfold fields_to_include. rewrite args_get_insert_eq.
      case_decide as Hstar; [|done].
      rewrite Hstar in Hreq. cbn in Hreq.
      apply list_elem_of_singleton in Hreq as ->.
      by apply star_unrecognized in Hf.
Qed.

End api_keyword_list.

(** The hypotheses of [get_library_keywords_fields] hold for the example store
    and a request for the fields [name] and [doc] of collection [1]. *)
Lemma get_library_keywords_fields_witness :
  ∃ objs,
    ApiEndpoint.get_library_keywords Demo.url_for Demo.html_format Demo.app
      (<["fields" := "name,doc"]> ∅) "1" = Done (jsonify_keywords objs) ∧
    Forall2 (λ kw obj,
               dom obj = list_to_set (filter (λ f, f ∈ ApiEndpoint.all_fields)
                                        (ApiEndpoint.fields_to_include
                                           (<["fields" := "name,doc"]> ∅))) ∧
               obj ⊆ ApiEndpoint.full_mapping Demo.url_for Demo.html_format kw)
            (filter (ApiEndpoint.selected "1") [Demo.log; Demo.click; Demo.open_page])
            objs ∧
    (PyStr.lower (PyStr.strip (args_get (<["fields" := "name,doc"]> ∅) "fields" "*"))
       = "*" →
     Forall (λ obj, dom obj = list_to_set ApiEndpoint.all_fields) objs).
Proof.
  apply (get_library_keywords_fields Demo.url_for Demo.html_format Demo.app
           (<["fields" := "name,doc"]> ∅) "1" Demo.kwdb
           [Demo.log; Demo.click; Demo.open_page]); reflexivity.
Defined.

(** C1, as stated, fails: a request for the fields [name] and [bogus]
    gets objects with the key [name] only. *)
Lemma get_library_keywords_unrecognized_field :
  ∃ obj,
    ApiEndpoint.get_library_keywords Demo.url_for Demo.html_format Demo.app
      (<["fields" := "name,bogus"]> ∅) "1" = Done (jsonify_keywords [obj]) ∧
    ApiEndpoint.fields_to_include (<["fields" := "name,bogus"]> ∅) = ["name"; "bogus"] ∧
    dom obj = {["name"]} ∧
    dom obj ≠ list_to_set ["name"; "bogus"].
Proof.
  exists (<["name" := "Log"]> ∅).
  split; [by vm_compute|]. split; [reflexivity|].
  assert (dom (<["name" := "Log"]> (∅ : gmap string string)) = {["name"]}) as ->.
  { by rewrite dom_insert_L, dom_empty_L, (right_id_L ∅ (∪)). }
  split; [done|]. intros Heq.
  assert ("bogus" ∈ ({["name"]} : gset string)) as Hin.
  { rewrite Heq, elem_of_list_to_set. apply elem_of_cons. right.
    apply elem_of_cons. by left. }
  by apply elem_of_singleton in Hin.
Qed.

(** The hypotheses of [htmldoc_failure_is_local] hold for the example store,
    whose formatter fails on the documentation of [Click Element]. *)
Lemma htmldoc_failure_is_local_witness :
  status (ApiEndpoint.get_library_keywords Demo.url_for Demo.html_format Demo.app
            (<["fields" := "name,htmldoc"]> ∅) "") = 200 ∧
  ∃ obj,
    ApiEndpoint.get_library_keywords Demo.url_for Demo.html_format Demo.app
      (<["fields" := "name,htmldoc"]> ∅) "" =
      Done (jsonify_keywords
              ((ApiEndpoint.keyword_object Demo.url_for Demo.html_format
                  (<["fields" := "name,htmldoc"]> ∅)
                  <$> filter (ApiEndpoint.selected "") [Demo.log])
               ++ obj ::
               (ApiEndpoint.keyword_object Demo.url_for Demo.html_format
                  (<["fields" := "name,htmldoc"]> ∅)
                  <$> filter (ApiEndpoint.selected "") [Demo.open_page]))) ∧
    obj !! "htmldoc" =
      Some ("<p>Error generating documentation: " +:+
            str_of_exn (Exception "unbalanced markup") +:+ "</p>") ∧
    ∀ f, f ≠ "htmldoc" →
      obj !! f =
      if decide (f ∈ ApiEndpoint.fields_to_include (<["fields" := "name,htmldoc"]> ∅))
      then ApiEndpoint.field_mapping Demo.url_for Demo.click !! f else None.
Proof.
  apply (htmldoc_failure_is_local Demo.url_for Demo.html_format Demo.app
           (<["fields" := "name,htmldoc"]> ∅) "" Demo.kwdb
           [Demo.log] Demo.click [Demo.open_page] (Exception "unbalanced markup")).
  - reflexivity.
  - reflexivity.
  - left. reflexivity.
  - vm_compute. apply list_elem_of_further, list_elem_of_here.
  - reflexivity.
Defined.

(** The hypotheses of [fields_parameter_normalised] hold for two spellings of
    one field list and the example store: the objects hold the name, and
    neither the unknown field nor the documentation that was not asked
    for. *)
Lemma fields_parameter_normalised_witness :
  PyStr.lower " Name,Bogus" = PyStr.lower " NAME,bogus" ∧
  ApiEndpoint.get_library_keywords Demo.url_for Demo.html_format Demo.app
    (<["fields" := " Name,Bogus"]> ∅) "1" =
  ApiEndpoint.get_library_keywords Demo.url_for Demo.html_format Demo.app
    (<["fields" := " NAME,bogus"]> ∅) "1" ∧
  ∃ objs,
    ApiEndpoint.get_library_keywords Demo.url_for Demo.html_format Demo.app
      (<["fields" := " Name,Bogus"]> ∅) "1" = Done (jsonify_keywords objs) ∧
    Forall2 (λ kw obj,
               obj !! "name" = Some (keyword_name kw) ∧
               obj !! "bogus" = None ∧
               obj !! "doc" = None)
            [Demo.log] objs.
Proof.
  split; [reflexivity|].
  destruct (fields_parameter_normalised Demo.url_for Demo.html_format Demo.app
              ∅ "1" " Name,Bogus" " NAME,bogus" eq_refl) as (Hcase & _ & Hobjs).
  split; [exact Hcase|].
  destruct (Hobjs Demo.kwdb [Demo.log; Demo.click; Demo.open_page] eq_refl eq_refl)
    as (objs & Hview & _ & Hall).
  exists objs. split; [exact Hview|].
  eapply Forall2_impl; [exact Hall|].
  intros kw obj Hobj. split; [|split].
  - exact (proj1 (Hobj "name")).
  - exact (proj1 (Hobj "bogus")).
  - exact (proj1 (Hobj "doc")).
Defined.

(** ** Properties of the single-keyword view *)

Section api_single_keyword.
Import ApiEndpoint.

Variable url_for : string → list (string * string) → string.

Local Abbreviation get_library_keyword := (get_library_keyword url_for).

(** C2 (amended).  With a store attached whose collection lookup answers,
    the view aborts with 404 when the lookup has two or more matches, when
    the store raises while it fetches the keyword, and when the store has no
    data for the keyword.  With zero matches the identifier is handed to the
    store as it was given, and the view returns (status 200) when the store
    has the keyword under it. *)
Theorem get_library_keyword_not_found app kwdb collection_id keyword collections :
  app_kwdb app = Some kwdb →
  kwdb_get_collections kwdb (Some (PyStr.lower (PyStr.strip collection_id))) None
    = inr collections →
  let resolved :=
    match collections with [c] => coll_collection_id c | _ => collection_id end in
  let view := get_library_keyword app collection_id keyword in
  (2 ≤ length collections →
   view = Abort 404 "Ambiguous collection identifier.") ∧
  (length collections ≤ 1 →
   ∀ e, kwdb_get_keyword kwdb resolved keyword = inl e →
   view = Abort 404 "Keyword not found or database error.") ∧
  (length collections ≤ 1 →
   ∀ keyword_data, kwdb_get_keyword kwdb resolved keyword = inr keyword_data →
   truthy keyword_data = None →
   view = Abort 404 "Keyword not found.") ∧
  (collections = [] →
   ∀ keyword_data cid,
     kwdb_get_keyword kwdb collection_id keyword = inr (Some keyword_data) →
     keyword_data ≠ ∅ →
     keyword_data !! "collection_id" = Some cid →
     view = Done (jsonify_keyword
                    (<["library_url" := url_for ".get_library" [("collection_id", cid)]]>
                       keyword_data)) ∧
     status view = 200).
Proof.
  intros Happ Hcols resolved view. subst view.
  unfold ApiEndpoint.get_library_keyword. rewrite Happ, Hcols. cbn.
  split; [|split; [|split]].
  - destruct collections as [|c [|c' cs]]; cbn; [lia|lia|done].
  - intros Hlen e He.
    destruct collections as [|c [|c' cs]]; cbn in *; [| |lia];
      subst resolved; by rewrite He.
  - intros Hlen keyword_data Hdata Hfalse.
    destruct collections as [|c [|c' cs]]; cbn in *; [| |lia];
      subst resolved; rewrite Hdata; cbn; by rewrite Hfalse.
  - intros -> keyword_data cid Hdata Hne Hcid. cbn. rewrite Hdata. cbn.
    rewrite decide_False by done. by rewrite Hcid.
Qed.

(** C4 (amended).  When a name resolves to exactly one collection, and the
    lookup of that collection's identifier resolves to nothing or to a
    collection with this identifier, the request by name and the request by
    identifier give the same outcome. *)
Theorem name_resolves_like_id app kwdb collection_name keyword c :
  app_kwdb app = Some kwdb →
  kwdb_get_collections kwdb (Some (PyStr.lower (PyStr.strip collection_name))) None
    = inr [c] →
  (kwdb_get_collections kwdb
     (Some (PyStr.lower (PyStr.strip (coll_collection_id c)))) None = inr [] ∨
   ∃ c', kwdb_get_collections kwdb
           (Some (PyStr.lower (PyStr.strip (coll_collection_id c)))) None = inr [c'] ∧
         coll_collection_id c' = coll_collection_id c) →
  get_library_keyword app collection_name keyword =
  get_library_keyword app (coll_collection_id c) keyword.
Proof.
  intros Happ Hname Hid. unfold ApiEndpoint.get_library_keyword.
  rewrite Happ, Hname.
  destruct Hid as [Hid|(c' & Hid & Hsame)]; rewrite Hid; cbn; [done|].
  by rewrite Hsame.
Qed.

End api_single_keyword.

(** The hypotheses of [get_library_keyword_not_found] hold for the example
    store and an identifier that matches no collection name. *)
Lemma get_library_keyword_not_found_witness :
  kwdb_get_collections Demo.kwdb (Some (PyStr.lower (PyStr.strip "1"))) None = inr [] ∧
  ApiEndpoint.get_library_keyword Demo.url_for Demo.app "1" "Crash"
    = Abort 404 "Keyword not found or database error." ∧
  ApiEndpoint.get_library_keyword Demo.url_for Demo.app "1" "Sleep"
    = Abort 404 "Keyword not found." ∧
  status (ApiEndpoint.get_library_keyword Demo.url_for Demo.app "1" "Log") = 200.
Proof.
  split; [reflexivity|].
  pose proof (get_library_keyword_not_found Demo.url_for Demo.app Demo.kwdb
                "1" "Crash" [] eq_refl eq_refl) as (_ & Hraise & _).
  pose proof (get_library_keyword_not_found Demo.url_for Demo.app Demo.kwdb
                "1" "Sleep" [] eq_refl eq_refl) as (_ & _ & Hnone & _).
  pose proof (get_library_keyword_not_found Demo.url_for Demo.app Demo.kwdb
                "1" "Log" [] eq_refl eq_refl) as (_ & _ & _ & Hzero).
  split; [|split].
  - apply (Hraise (le_S _ _ (le_n 0)) (Exception "database is locked")). reflexivity.
  - apply (Hnone (le_S _ _ (le_n 0)) None); reflexivity.
  - apply (Hzero eq_refl (<["collection_id" := "1"]> (<["name" := "Log"]> ∅)) "1");
      [reflexivity|by apply insert_non_empty|reflexivity].
Defined.

(** C2, as stated, fails: an identifier that matches no collection name is
    fetched under the identifier itself, and the request succeeds. *)
Lemma get_library_keyword_zero_matches :
  kwdb_get_collections Demo.kwdb (Some (PyStr.lower (PyStr.strip "1"))) None = inr [] ∧
  ApiEndpoint.get_library_keyword Demo.url_for Demo.app "1" "Log" =
    Done (jsonify_keyword
            (<["library_url" := ".get_library?collection_id=1"]>
             (<["collection_id" := "1"]> (<["name" := "Log"]> ∅)))) ∧
  status (ApiEndpoint.get_library_keyword Demo.url_for Demo.app "1" "Log") ≠ 404.
Proof. split; [reflexivity|]. split; [by vm_compute|by vm_compute]. Qed.

(** The hypotheses of [name_resolves_like_id] hold for the example store and
    the name of the standard library. *)
Lemma name_resolves_like_id_witness :
  kwdb_get_collections Demo.kwdb (Some (PyStr.lower (PyStr.strip " BuiltIn "))) None
    = inr [Demo.builtin] ∧
  ApiEndpoint.get_library_keyword Demo.url_for Demo.app " BuiltIn " "Log" =
  ApiEndpoint.get_library_keyword Demo.url_for Demo.app "1" "Log".
Proof.
  split; [reflexivity|].
  apply (name_resolves_like_id Demo.url_for Demo.app Demo.kwdb
           " BuiltIn " "Log" Demo.builtin eq_refl eq_refl).
  left. reflexivity.
Defined.

(** C4, as stated, fails: [builtin] resolves to the one collection with the
    identifier [1], but that identifier is itself the name of another
    collection, so the request by identifier fetches from the other one. *)
Lemma name_and_id_differ :
  kwdb_get_collections Demo.kwdb_clash (Some (PyStr.lower (PyStr.strip "BuiltIn"))) None
    = inr [Demo.builtin] ∧
  coll_collection_id Demo.builtin = "1" ∧
  ApiEndpoint.get_library_keyword Demo.url_for Demo.app_clash "BuiltIn" "Log"
    = Done (jsonify_keyword
              (<["library_url" := ".get_library?collection_id=1"]>
               (<["collection_id" := "1"]> (<["name" := "Log"]> ∅)))) ∧
  ApiEndpoint.get_library_keyword Demo.url_for Demo.app_clash "1" "Log"
    = Done (jsonify_keyword
              (<["library_url" := ".get_library?collection_id=4"]>
               (<["collection_id" := "4"]> (<["name" := "Log"]> ∅)))) ∧
  ApiEndpoint.get_library_keyword Demo.url_for Demo.app_clash "BuiltIn" "Log" ≠
  ApiEndpoint.get_library_keyword Demo.url_for Demo.app_clash "1" "Log".
Proof.
  split; [reflexivity|]. split; [reflexivity|].
  split; [by vm_compute|]. split; [by vm_compute|].
  intros Heq.
  apply (f_equal (λ o, match o with
                       | Done (jsonify_keyword m) => m !! "collection_id"
                       | _ => None
                       end)) in Heq.
  by vm_compute in Heq.
Qed.

(** ** The search page *)

Section sort_facts.
Import Doc.
Context {A : Type} (key : A → string).

Let by_key (a b : A) : Prop := String.le (key a) (key b).

Lemma insert_by_perm x l : insert_by key x l ≡ₚ x :: l.
Proof.
  induction l as [|y l IH]; cbn [insert_by]; [done|].
  destruct (String.leb (key x) (key y)); [done|].
  by rewrite IH, Permutation_swap.
Qed.

Lemma sort_by_perm l : sort_by key l ≡ₚ l.
Proof.
  induction l as [|x l IH]; [done|].
  unfold sort_by in *. cbn [foldr]. by rewrite insert_by_perm, IH.
Qed.

Lemma insert_by_sorted x l :
  StronglySorted by_key l → StronglySorted by_key (insert_by key x l).
Proof.
  induction 1 as [|y l Hl IH Hy]; cbn [insert_by].
  - by repeat constructor.
  - destruct (String.leb (key x) (key y)) eqn:Hxy.
    + constructor; [by constructor|]. constructor.
      * unfold by_key, String.le. by rewrite Hxy.
      * eapply Forall_impl; [exact Hy|]. intros z Hz.
        unfold by_key in *. etrans; [|exact Hz].
        unfold String.le. by rewrite Hxy.
    + constructor; [exact IH|].
      rewrite insert_by_perm. constructor; [|exact Hy].
      unfold by_key. destruct (total String.le (key x) (key y)) as [Hle|Hle]; [|done].
      unfold String.le in Hle. by rewrite Hxy in Hle.
Qed.

Lemma sort_by_sorted l : StronglySorted by_key (sort_by key l).
Proof.
  induction l as [|x l IH]; [constructor|].
  unfold sort_by in *. cbn [foldr]. by apply insert_by_sorted.
Qed.

(** The sort is stable: the elements of one key keep their order. *)
Lemma insert_by_same_key x l k :
  filter (λ y, key y = k) (insert_by key x l) = filter (λ y, key y = k) (x :: l).
Proof.
  induction l as [|y l IH]; cbn [insert_by]; [done|].
  destruct (String.leb (key x) (key y)) eqn:Hxy; [done|].
  rewrite filter_cons, IH, !filter_cons.
  destruct (decide (key y = k)) as [Hy|Hy]; [|done].
  destruct (decide (key x = k)) as [Hx|Hx]; [|done].
  exfalso. rewrite Hx, <-Hy in Hxy.
  pose proof (reflexivity (R := String.le) (key y)) as Hrefl.
  unfold String.le in Hrefl. by rewrite Hxy in Hrefl.
Qed.

Lemma sort_by_same_key l k :
  filter (λ y, key y = k) (sort_by key l) = filter (λ y, key y = k) l.
Proof.
  induction l as [|x l IH]; [done|].
  unfold sort_by in *. cbn [foldr].
  by rewrite insert_by_same_key, !filter_cons, IH.
Qed.

End sort_facts.

Section search_facts.
Import Doc.

Variable url_for : string → list (string * string) → string.
Variable version : string.

Local Abbreviation make_row := (make_row url_for version).
Local Abbreviation search := (search url_for version).

Lemma foldl_append_hit filters hits acc :
  foldl (append_hit url_for version filters) acc hits =
  acc ++ (make_row <$> filter (kept filters) hits).
Proof.
  revert acc. induction hits as [|hit hits IH]; intros acc; cbn [foldl].
  - by rewrite filter_nil, fmap_nil, app_nil_r.
  - rewrite IH. unfold append_hit. rewrite filter_cons.
    repeat case_decide; unfold kept in *; try done.
    by rewrite fmap_cons, <-app_assoc.
Qed.

(** An empty filter list keeps every hit. *)
Lemma filter_kept_nil (hits : list search_hit) : filter (kept []) hits = hits.
Proof.
  induction hits as [|hit hits IH]; [done|].
  rewrite filter_cons_True by (by left). by rewrite IH.
Qed.

(** The loop over the words keeps the words that are no [in:] token, and
    collects what each token selects. *)
Lemma foldl_scan_word collections l words filters :
  foldl (scan_word collections) (words, filters) l =
  (words ++ filter (λ word, ¬ is_in_token word) l,
   filters ++ mjoin (token_matches collections <$> filter is_in_token l)).
Proof.
  revert words filters.
  induction l as [|word l IH]; intros words filters; cbn [foldl].
  - by rewrite !filter_nil, fmap_nil, !app_nil_r.
  - destruct (decide (is_in_token word)) as [Hin|Hin].
    + rewrite (filter_cons_True is_in_token), filter_cons_False by (by auto).
      unfold scan_word at 2. unfold is_in_token in Hin. rewrite Hin, IH.
      by rewrite fmap_cons, <-app_assoc.
    + rewrite (filter_cons_False is_in_token), filter_cons_True by done.
      unfold scan_word at 2. unfold is_in_token in Hin.
      apply not_true_is_false in Hin. rewrite Hin, IH.
      by rewrite <-app_assoc.
Qed.

Lemma scan_words_eq collections pattern :
  scan_words collections pattern =
  (filter (λ word, ¬ is_in_token word) (PyStr.split " " pattern),
   mjoin (token_matches collections <$> filter is_in_token (PyStr.split " " pattern))).
Proof. unfold scan_words. by rewrite foldl_scan_word. Qed.

(** With a store attached that answers both calls, the page gets the kept
    hits, sorted. *)
Lemma search_done app args kwdb cs pattern mode words filters hits :
  app_config_kwdb app = Some kwdb →
  kwdb_get_collections kwdb None None = inr cs →
  search_mode (PyStr.lower (PyStr.strip (args_get args "pattern" "*"))) = (pattern, mode) →
  scan_words ((λ c, PyStr.lower (coll_name c)) <$> cs) pattern = (words, filters) →
  kwdb_search kwdb (PyStr.join " " words) mode = inr hits →
  search app args =
  Done (render_template "search.html"
          (SearchData (sort_by row_name (make_row <$> filter (kept filters) hits))
                      version (PyStr.join " " words))).
Proof.
  intros Happ Hcs Hmode Hscan Hhits. unfold Doc.search, config_kwdb.
  rewrite Happ. cbn. rewrite Hcs. cbn. rewrite Hmode, Hscan, Hhits. cbn.
  by rewrite foldl_append_hit.
Qed.

(** Whenever the view returns, what it hands over is of that shape. *)
Lemma search_inv app args template data :
  search app args = Done (render_template template data) →
  ∃ filters hits,
    data_keywords data = sort_by row_name (make_row <$> filter (kept filters) hits).
Proof.
  unfold Doc.search, config_kwdb.
  destruct (app_config_kwdb app) as [kwdb|]; [|done]. cbn.
  destruct (kwdb_get_collections kwdb None None) as [e|cs]; [done|]. cbn.
  destruct (search_mode _) as [pattern mode].
  destruct (scan_words _ _) as [words filters].
  destruct (kwdb_search kwdb _ _) as [e|hits]; [done|]. cbn.
  intros [= <- <-]. exists filters, hits. cbn. by rewrite foldl_append_hit.
Qed.

End search_facts.

(** ** Properties of the search page *)

Section search_claims.
Import Doc.

Variable url_for : string → list (string * string) → string.
Variable version : string.

Local Abbreviation make_row := (make_row url_for version).
Local Abbreviation search := (search url_for version).

Lemma elem_of_search_rows filters hits row :
  row ∈ sort_by row_name (make_row <$> filter (kept filters) hits) ↔
  ∃ hit, hit ∈ hits ∧ kept filters hit ∧ row = make_row hit.
Proof.
  rewrite sort_by_perm, list_elem_of_fmap.
  split; intros (hit & H1 & H2).
  - apply list_elem_of_filter in H2 as [? ?]. by exists hit.
  - destruct H2 as [? ?]. exists hit. split; [done|]. by apply list_elem_of_filter.
Qed.

(** What the [in:] tokens of a query collect: a name is in the filter list
    exactly when some token selects it. *)
Lemma elem_of_filters collections pattern name :
  name ∈ (scan_words collections pattern).2 ↔
  ∃ word, word ∈ PyStr.split " " pattern ∧ is_in_token word ∧
          name ∈ collections ∧
          PyStr.startswith (PyStr.slice_from 3 word) name = true.
Proof.
  rewrite scan_words_eq. cbn [snd]. rewrite list_elem_of_join. split.
  - intros (l & Hname & Hl). apply list_elem_of_fmap in Hl as (word & -> & Hword).
    apply list_elem_of_filter in Hword as [Htoken Hword].
    apply list_elem_of_filter in Hname as [Hprefix Hname]. by exists word.
  - intros (word & Hword & Htoken & Hname & Hprefix).
    exists (token_matches collections word). split.
    + by apply list_elem_of_filter.
    + apply list_elem_of_fmap. exists word. split; [done|].
      by apply list_elem_of_filter.
Qed.

(** The query [in:builtin click] when its token selects something: the
    store is searched for [click] in both names and documentation, and
    every row of the page is one of its hits.  When at least one collection
    has a lower-cased name that starts with [builtin], every row belongs to
    a collection whose lower-cased name starts with [builtin].  In every
    query the filter list is the union of what the [in:] tokens select: a
    name is in it exactly when some token's prefix starts that collection
    name. *)
Theorem search_in_builtin_click app args kwdb cs hits :
  PyStr.lower (PyStr.strip (args_get args "pattern" "*")) = "in:builtin click" →
  app_config_kwdb app = Some kwdb →
  kwdb_get_collections kwdb None None = inr cs →
  kwdb_search kwdb "click" "both" = inr hits →
  (∃ keywords,
     search app args =
       Done (render_template "search.html" (SearchData keywords version "click")) ∧
     (∀ row, row ∈ keywords → ∃ hit, hit ∈ hits ∧ row = make_row hit) ∧
     ((∃ c, c ∈ cs ∧ PyStr.startswith "builtin" (PyStr.lower (coll_name c)) = true) →
      ∀ row, row ∈ keywords →
        PyStr.startswith "builtin" (PyStr.lower (row_collection_name row)) = true)) ∧
  (∀ collections pattern name,
     name ∈ (scan_words collections pattern).2 ↔
     ∃ word, word ∈ PyStr.split " " pattern ∧ is_in_token word ∧
             name ∈ collections ∧
             PyStr.startswith (PyStr.slice_from 3 word) name = true).
Proof.
  intros Hpattern Happ Hcs Hhits. split; [|apply elem_of_filters].
  set (collections := (λ c, PyStr.lower (coll_name c)) <$> cs).
  set (filters := filter (λ name, PyStr.startswith "builtin" name = true) collections).
  eexists. split.
  { apply (search_done url_for version app args kwdb cs
             "in:builtin click" "both" ["click"] filters hits); try done.
    by rewrite Hpattern. }
  split.
  - intros row Hrow. apply elem_of_search_rows in Hrow as (hit & ? & _ & ?).
    by exists hit.
  - intros (c & Hc & Hprefix) row Hrow.
    apply elem_of_search_rows in Hrow as (hit & _ & Hkept & ->). cbn.
    assert (PyStr.lower (coll_name c) ∈ filters) as Hin.
    { apply list_elem_of_filter. split; [done|].
      apply list_elem_of_fmap. by exists c. }
    destruct Hkept as [Hempty|Hkept].
    + destruct filters; [by apply elem_of_nil in Hin|done].
    + by apply list_elem_of_filter in Hkept as [? _].
Qed.

(** C6.  Whatever the store returns and in whatever order, the list handed
    to the search page is in ascending order of keyword name; and with a
    store attached that answers, the page is rendered with a sorted
    rearrangement of the kept hits. *)
Theorem search_results_sorted app args :
  (∀ template data,
     search app args = Done (render_template template data) →
     StronglySorted by_name (data_keywords data)) ∧
  (∀ kwdb cs pattern mode words filters hits,
     app_config_kwdb app = Some kwdb →
     kwdb_get_collections kwdb None None = inr cs →
     search_mode (PyStr.lower (PyStr.strip (args_get args "pattern" "*")))
       = (pattern, mode) →
     scan_words ((λ c, PyStr.lower (coll_name c)) <$> cs) pattern = (words, filters) →
     kwdb_search kwdb (PyStr.join " " words) mode = inr hits →
     ∃ keywords,
       search app args =
         Done (render_template "search.html"
                 (SearchData keywords version (PyStr.join " " words))) ∧
       StronglySorted by_name keywords ∧
       keywords ≡ₚ make_row <$> filter (kept filters) hits).
Proof.
  split.
  - intros template data Hview.
    apply search_inv in Hview as (filters & hits & ->). apply sort_by_sorted.
  - intros kwdb cs pattern mode words filters hits Happ Hcs Hmode Hscan Hhits.
    eexists. split; [by eapply search_done|].
    split; [apply sort_by_sorted|apply sort_by_perm].
Qed.

(** C8 (amended).  The identifier of every row of the search page is
    [row-], the lower-cased collection name, a dot, and the lower-cased
    keyword name with its spaces replaced by hyphens; the spaces of the
    collection name stay. *)
Theorem search_row_id app args template data row :
  search app args = Done (render_template template data) →
  row ∈ data_keywords data →
  row_id row =
    "row-" +:+ PyStr.lower (row_collection_name row) +:+ "." +:+
    PyStr.replace " " "-" (PyStr.lower (row_name row)).
Proof.
  intros Hview Hrow. apply search_inv in Hview as (filters & hits & Hdata).
  rewrite Hdata in Hrow. by apply elem_of_search_rows in Hrow as (hit & _ & _ & ->).
Qed.

(** C9.  When no [in:] token of the query selects a collection name, the
    filter list is empty and the page gets every hit of the store for the
    remaining words, sorted: nothing is filtered out. *)
Theorem search_unmatched_tokens app args kwdb cs pattern mode hits :
  app_config_kwdb app = Some kwdb →
  kwdb_get_collections kwdb None None = inr cs →
  search_mode (PyStr.lower (PyStr.strip (args_get args "pattern" "*")))
    = (pattern, mode) →
  (∀ word c,
     word ∈ PyStr.split " " pattern → is_in_token word → c ∈ cs →
     PyStr.startswith (PyStr.slice_from 3 word) (PyStr.lower (coll_name c)) = false) →
  kwdb_search kwdb
    (PyStr.join " " (filter (λ word, ¬ is_in_token word) (PyStr.split " " pattern)))
    mode = inr hits →
  (scan_words ((λ c, PyStr.lower (coll_name c)) <$> cs) pattern).2 = [] ∧
  search app args =
    Done (render_template "search.html"
            (SearchData
               (sort_by row_name (make_row <$> hits)) version
               (PyStr.join " "
                  (filter (λ word, ¬ is_in_token word) (PyStr.split " " pattern))))).
Proof.
  intros Happ Hcs Hmode Hnone Hhits.
  assert ((scan_words ((λ c, PyStr.lower (coll_name c)) <$> cs) pattern).2 = [])
    as Hfilters.
  { destruct (scan_words _ pattern).2 as [|name filters] eqn:Hscan; [done|].
    assert (name ∈ (scan_words ((λ c, PyStr.lower (coll_name c)) <$> cs) pattern).2)
      as Hname by (rewrite Hscan; apply list_elem_of_here).
    apply elem_of_filters in Hname as (word & Hword & Htoken & Hin & Hprefix).
    apply list_elem_of_fmap in Hin as (c & -> & Hc).
    by rewrite (Hnone word c) in Hprefix. }
  split; [done|].
  rewrite (search_done url_for version app args kwdb cs pattern mode
             (filter (λ word, ¬ is_in_token word) (PyStr.split " " pattern))
             [] hits); try done.
  - by rewrite filter_kept_nil.
  - rewrite scan_words_eq in Hfilters |- *. cbn [snd] in Hfilters. by rewrite Hfilters.
Qed.

End search_claims.

(** The hypotheses of [search_in_builtin_click] hold for the example store,
    which has the collection [BuiltIn]. *)
Lemma search_in_builtin_click_witness :
  ∃ keywords,
    Doc.search Demo.url_for "1.0" Demo.app (<["pattern" := " IN:BuiltIn Click "]> ∅) =
      Done (Doc.render_template "search.html" (Doc.SearchData keywords "1.0" "click")) ∧
    ∀ row, row ∈ keywords →
      PyStr.startswith "builtin" (PyStr.lower (Doc.row_collection_name row)) = true.
Proof.
  destruct (search_in_builtin_click Demo.url_for "1.0" Demo.app
              (<["pattern" := " IN:BuiltIn Click "]> ∅) Demo.kwdb
              [Demo.builtin; Demo.selenium; Demo.my_lib]
              [SearchHit "2" "SeleniumLibrary" "Click Element" "Clicks.";
               SearchHit "3" "My Lib" "Click Here" "Clicks here.";
               SearchHit "1" "BuiltIn" "Click" "Not really."])
    as [(keywords & Hview & _ & Hrows) _];
    [by vm_compute|reflexivity|reflexivity|by vm_compute|].
  exists keywords. split; [exact Hview|]. apply Hrows.
  exists Demo.builtin. split; [apply list_elem_of_here|reflexivity].
Defined.

(** C5 (code bug).  The claim, and the comment of [search] that the results
    are filtered to the collections of the token, are broken at this input:
    on a store where no collection name starts with [builtin] the filter
    list stays empty, the test [len(filters) == 0] takes the query for one
    without a token, and [in:builtin click] returns the hits of the other
    collections. *)
Lemma search_in_builtin_unfiltered :
  Doc.search Demo.url_for "1.0" Demo.app_small (<["pattern" := "in:builtin click"]> ∅) =
    Done (Doc.render_template "search.html"
      (Doc.SearchData
         [Doc.SearchRow "2" "SeleniumLibrary" "Click Element" "Clicks." "1.0"
            ".doc_for_library?collection_id=2&keyword=Click Element"
            "row-seleniumlibrary.click-element";
          Doc.SearchRow "3" "My Lib" "Click Here" "Clicks here." "1.0"
            ".doc_for_library?collection_id=3&keyword=Click Here"
            "row-my lib.click-here"]
         "1.0" "click")) ∧
  PyStr.startswith "builtin" "SeleniumLibrary" = false ∧
  PyStr.startswith "builtin" (PyStr.lower "SeleniumLibrary") = false.
Proof. split; [by vm_compute|]. split; reflexivity. Qed.

(** The page of the example store for the query [click] is sorted. *)
Lemma search_results_sorted_witness :
  StronglySorted Doc.by_name
    [Doc.SearchRow "1" "BuiltIn" "Click" "Not really." "1.0"
       ".doc_for_library?collection_id=1&keyword=Click" "row-builtin.click";
     Doc.SearchRow "2" "SeleniumLibrary" "Click Element" "Clicks." "1.0"
       ".doc_for_library?collection_id=2&keyword=Click Element"
       "row-seleniumlibrary.click-element";
     Doc.SearchRow "3" "My Lib" "Click Here" "Clicks here." "1.0"
       ".doc_for_library?collection_id=3&keyword=Click Here"
       "row-my lib.click-here"].
Proof.
  apply (proj1 (search_results_sorted Demo.url_for "1.0" Demo.app
                  (<["pattern" := "click"]> ∅))
           "search.html"
           (Doc.SearchData
              [Doc.SearchRow "1" "BuiltIn" "Click" "Not really." "1.0"
                 ".doc_for_library?collection_id=1&keyword=Click" "row-builtin.click";
               Doc.SearchRow "2" "SeleniumLibrary" "Click Element" "Clicks." "1.0"
                 ".doc_for_library?collection_id=2&keyword=Click Element"
                 "row-seleniumlibrary.click-element";
               Doc.SearchRow "3" "My Lib" "Click Here" "Clicks here." "1.0"
                 ".doc_for_library?collection_id=3&keyword=Click Here"
                 "row-my lib.click-here"]
              "1.0" "click")).
  vm_compute. reflexivity.
Defined.

(** The hypotheses of [search_row_id] hold for a row of the example store. *)
Lemma search_row_id_witness :
  Doc.row_id
    (Doc.SearchRow "2" "SeleniumLibrary" "Click Element" "Clicks." "1.0"
       ".doc_for_library?collection_id=2&keyword=Click Element"
       "row-seleniumlibrary.click-element") =
  "row-" +:+ PyStr.lower "SeleniumLibrary" +:+ "." +:+
  PyStr.replace " " "-" (PyStr.lower "Click Element").
Proof.
  apply (search_row_id Demo.url_for "1.0" Demo.app_small
           (<["pattern" := "in:builtin click"]> ∅) "search.html"
           (Doc.SearchData
              [Doc.SearchRow "2" "SeleniumLibrary" "Click Element" "Clicks." "1.0"
                 ".doc_for_library?collection_id=2&keyword=Click Element"
                 "row-seleniumlibrary.click-element";
               Doc.SearchRow "3" "My Lib" "Click Here" "Clicks here." "1.0"
                 ".doc_for_library?collection_id=3&keyword=Click Here"
                 "row-my lib.click-here"]
              "1.0" "click")).
  - vm_compute. reflexivity.
  - apply list_elem_of_here.
Defined.

(** C8, as stated, fails: the spaces of the collection name are not
    replaced, so the identifier of a keyword of [My Lib] has a space. *)
Lemma search_row_id_keeps_collection_spaces :
  ∃ row keywords,
    Doc.search Demo.url_for "1.0" Demo.app (<["pattern" := "in:my click"]> ∅) =
      Done (Doc.render_template "search.html" (Doc.SearchData keywords "1.0" "click")) ∧
    row ∈ keywords ∧
    Doc.row_collection_name row = "My Lib" ∧
    Doc.row_name row = "Click Here" ∧
    Doc.row_id row = "row-my lib.click-here" ∧
    Doc.row_id row ≠
      "row-" +:+ PyStr.replace " " "-" (PyStr.lower (Doc.row_collection_name row))
      +:+ "." +:+ PyStr.replace " " "-" (PyStr.lower (Doc.row_name row)).
Proof.
  exists (Doc.SearchRow "3" "My Lib" "Click Here" "Clicks here." "1.0"
            ".doc_for_library?collection_id=3&keyword=Click Here"
            "row-my lib.click-here").
  eexists. split; [by vm_compute|].
  split; [apply list_elem_of_here|]. by repeat split.
Qed.

(** The hypotheses of [search_unmatched_tokens] hold for the store without
    the standard library and the query [in:builtin click]. *)
Lemma search_unmatched_tokens_witness :
  (Doc.scan_words ((λ c, PyStr.lower (coll_name c)) <$> [Demo.selenium; Demo.my_lib])
     "in:builtin click").2 = [] ∧
  Doc.search Demo.url_for "1.0" Demo.app_small (<["pattern" := "in:builtin click"]> ∅) =
    Done (Doc.render_template "search.html"
            (Doc.SearchData
               (Doc.sort_by Doc.row_name
                  (Doc.make_row Demo.url_for "1.0" <$>
                   [SearchHit "2" "SeleniumLibrary" "Click Element" "Clicks.";
                    SearchHit "3" "My Lib" "Click Here" "Clicks here."]))
               "1.0"
               (PyStr.join " "
                  (filter (λ word, ¬ Doc.is_in_token word)
                     (PyStr.split " " "in:builtin click"))))).
Proof.
  apply (search_unmatched_tokens Demo.url_for "1.0" Demo.app_small
           (<["pattern" := "in:builtin click"]> ∅) Demo.kwdb_small
           [Demo.selenium; Demo.my_lib] "in:builtin click" "both"
           [SearchHit "2" "SeleniumLibrary" "Click Element" "Clicks.";
            SearchHit "3" "My Lib" "Click Here" "Clicks here."]).
  - reflexivity.
  - reflexivity.
  - reflexivity.
  - intros word c Hword _ Hc.
    apply elem_of_cons in Hword as [->|Hword];
      [|apply list_elem_of_singleton in Hword as ->];
      (apply elem_of_cons in Hc as [->|Hc];
       [|apply list_elem_of_singleton in Hc as ->]); reflexivity.
  - reflexivity.
Defined.

(** ** Properties of [doc_to_html] *)

(** C7.  On the empty string with the format [ROBOT] the result is the
    empty string; on an empty or absent documentation text, whatever the
    format, the result is the empty string and the converter is not
    called.  (On any other text it is called exactly once.) *)
Theorem doc_to_html_empty (DocToHtml : string → string → exn + string) :
  Doc.doc_to_html DocToHtml (Some "") (Some "ROBOT") = ([], Done "") ∧
  (∀ doc_format,
     Doc.doc_to_html DocToHtml (Some "") doc_format = ([], Done "") ∧
     Doc.doc_to_html DocToHtml None doc_format = ([], Done "")) ∧
  (∀ c doc doc_format,
     ∃ fmt, (Doc.doc_to_html DocToHtml (Some (String c doc)) doc_format).1
            = [Doc.DocToHtml_call fmt (String c doc)]).
Proof.
  split; [done|]. split; [done|].
  intros c doc doc_format. eexists. reflexivity.
Qed.

(** ** Further properties of the keyword list *)

Section api_keyword_list_more.
Import ApiEndpoint.

Variable url_for : string → list (string * string) → string.
Variable html_format : string → exn + string.

Local Abbreviation get_library_keywords := (get_library_keywords url_for html_format).
Local Abbreviation get_keywords := (get_keywords url_for html_format).
Local Abbreviation keyword_object := (keyword_object url_for html_format).

(** X1.  Only the set of requested names matters: two [fields] parameters
    that name the same fields, in any order and with any repetition, give
    the same response. *)
Theorem fields_order_and_repetition_irrelevant app args collection_id fields fields' :
  (∀ f, f ∈ fields_to_include (<["fields" := fields]> args) ↔
        f ∈ fields_to_include (<["fields" := fields']> args)) →
  get_library_keywords app (<["fields" := fields]> args) collection_id =
  get_library_keywords app (<["fields" := fields']> args) collection_id.
Proof.
  intros Hsame. unfold ApiEndpoint.get_library_keywords.
  rewrite !args_get_insert_ne by done.
  destruct (app_kwdb app) as [kwdb|]; [|done].
  destruct (kwdb_get_keywords kwdb _) as [e|kws]; [done|]. cbn.
  rewrite !foldl_append_keyword. do 3 f_equal.
  apply list_fmap_ext. intros _ kw _. apply map_eq. intros f.
  rewrite !keyword_object_lookup.
  destruct (decide (f ∈ fields_to_include (<["fields" := fields]> args))) as [Hin|Hin].
  - by rewrite decide_True by (by apply Hsame).
  - by rewrite decide_False by (by rewrite <-Hsame).
Qed.

(** X2.  A collection that no row of the store belongs to is not an error:
    the view returns the empty list, with status 200. *)
Theorem unknown_collection_gives_empty_list app args collection_id kwdb kws :
  app_kwdb app = Some kwdb →
  kwdb_get_keywords kwdb (PyStr.lower (PyStr.strip (args_get args "pattern" "*")))
    = inr kws →
  collection_id ≠ "" →
  (∀ kw, kw ∈ kws → keyword_collection_id kw ≠ collection_id) →
  get_library_keywords app args collection_id = Done (jsonify_keywords []) ∧
  status (get_library_keywords app args collection_id) = 200.
Proof.
  intros Happ Hkws Hne Hnone.
  rewrite (get_library_keywords_done _ _ _ _ _ _ _ Happ Hkws).
  split; [|done]. do 2 f_equal.
  assert (filter (selected collection_id) kws = []) as ->; [|done].
  clear Hkws. induction kws as [|kw kws IH]; [done|].
  rewrite filter_cons_False.
  - apply IH. intros kw' Hkw'. apply Hnone. by apply elem_of_cons; right.
  - intros [Hempty|Heq]; [by apply Hne|].
    apply (Hnone kw); [by apply elem_of_cons; left|done].
Qed.

(** X3.  The formatter is consulted for [htmldoc] only: a request that does
    not ask for [htmldoc] gets the same response whatever the formatter
    does. *)
Theorem formatter_unused_without_htmldoc html_format' app args collection_id :
  "htmldoc" ∉ fields_to_include args →
  get_library_keywords app args collection_id =
  ApiEndpoint.get_library_keywords url_for html_format' app args collection_id.
Proof.
  intros Hreq. unfold ApiEndpoint.get_library_keywords.
  destruct (app_kwdb app) as [kwdb|]; [|done].
  destruct (kwdb_get_keywords kwdb _) as [e|kws]; [done|]. cbn.
  rewrite !foldl_append_keyword. do 3 f_equal.
  apply list_fmap_ext. intros _ kw _. apply map_eq. intros f.
  rewrite !keyword_object_lookup. case_decide as Hin; [|done].
  unfold ApiEndpoint.full_mapping.
  assert (f ≠ "htmldoc") as Hf by (by intros ->).
  by rewrite !lookup_insert_ne.
Qed.

(** X4.  The list view answers 200 or 500 and never 404: it returns
    exactly when a store is attached and answers the pattern. *)
Theorem get_library_keywords_status app args collection_id :
  (status (get_library_keywords app args collection_id) = 200 ↔
   ∃ kwdb kws,
     app_kwdb app = Some kwdb ∧
     kwdb_get_keywords kwdb (PyStr.lower (PyStr.strip (args_get args "pattern" "*")))
       = inr kws) ∧
  (status (get_library_keywords app args collection_id) ≠ 200 →
   status (get_library_keywords app args collection_id) = 500).
Proof.
  unfold ApiEndpoint.get_library_keywords.
  destruct (app_kwdb app) as [kwdb|]; cbn.
  - destruct (kwdb_get_keywords kwdb _) as [e|kws] eqn:Hkws; cbn.
    + split; [|done]. split; [done|]. intros (kwdb' & kws & [= <-] & Hkws').
      by rewrite Hkws in Hkws'.
    + split; [|done]. split; [|done]. intros _. by exists kwdb, kws.
  - split; [|done]. split; [done|]. by intros (? & ? & ? & _).
Qed.

(** X5.  Without a [collection_id] parameter the endpoint [/keywords/]
    lists every row the store returns for the pattern, one object each, in
    the order of the store. *)
Theorem get_keywords_all_collections app args kwdb kws :
  args !! "collection_id" = None →
  app_kwdb app = Some kwdb →
  kwdb_get_keywords kwdb (PyStr.lower (PyStr.strip (args_get args "pattern" "*")))
    = inr kws →
  get_keywords app args = Done (jsonify_keywords (keyword_object args <$> kws)).
Proof.
  intros Hcid Happ Hkws. unfold ApiEndpoint.get_keywords, args_get at 1.
  rewrite Hcid. cbn.
  rewrite (get_library_keywords_done _ _ _ _ _ _ _ Happ Hkws). do 3 f_equal.
  clear Hkws. induction kws as [|kw kws IH]; [done|].
  rewrite filter_cons_True by (by left). by rewrite IH.
Qed.

(** X22.  The store is asked for the [pattern] parameter stripped and in
    lower case, and for nothing else: with a store attached, the response
    is the list built from what [kwdb.get_keywords] returns for that text,
    or the exception it raises for it.  So two patterns that differ in
    letter case or in surrounding white space only give the same
    response. *)
Theorem pattern_parameter_normalised app args collection_id pattern kwdb :
  app_kwdb app = Some kwdb →
  get_library_keywords app (<["pattern" := pattern]> args) collection_id =
    match kwdb_get_keywords kwdb (PyStr.lower (PyStr.strip pattern)) with
    | inr kws =>
        Done (jsonify_keywords
                (keyword_object args <$> filter (selected collection_id) kws))
    | inl e => Raise e
    end ∧
  (∀ pattern',
     PyStr.lower (PyStr.strip pattern) = PyStr.lower (PyStr.strip pattern') →
     get_library_keywords app (<["pattern" := pattern]> args) collection_id =
     get_library_keywords app (<["pattern" := pattern']> args) collection_id) ∧
  (∀ pattern',
     PyStr.lower pattern = PyStr.lower pattern' →
     get_library_keywords app (<["pattern" := pattern]> args) collection_id =
     get_library_keywords app (<["pattern" := pattern']> args) collection_id).
Proof.
  intros Happ.
  assert (∀ p,
    get_library_keywords app (<["pattern" := p]> args) collection_id =
    match kwdb_get_keywords kwdb (PyStr.lower (PyStr.strip p)) with
    | inr kws =>
        Done (jsonify_keywords
                (keyword_object args <$> filter (selected collection_id) kws))
    | inl e => Raise e
    end) as Hview.
  { intros p. unfold ApiEndpoint.get_library_keywords.
    rewrite Happ, args_get_insert_eq.
    destruct (kwdb_get_keywords kwdb _) as [e|kws]; [done|]. cbn.
    rewrite foldl_append_keyword. do 3 f_equal.
    apply list_fmap_ext. intros _ kw _. unfold ApiEndpoint.keyword_object.
    f_equal. unfold fields_to_include. by rewrite args_get_insert_ne. }
  split; [apply Hview|]. split.
  - intros pattern' Hsame. by rewrite !Hview, Hsame.
  - intros pattern' Hcase. rewrite !Hview, <-!strip_lower. by rewrite Hcase.
Qed.

End api_keyword_list_more.

(** ** Splitting and joining *)

Section split_join_facts.
Import PyStr.

Lemma split_cons_inv sep s : ∃ w ws, split sep s = w :: ws.
Proof.
  destruct (split sep s) as [|w ws] eqn:Hs; [by apply split_nonempty in Hs|].
  by exists w, ws.
Qed.

(** No piece of a split holds the separator. *)
Lemma split_no_sep sep s : Forall (λ w, sep ∉ chars w) (split sep s).
Proof.
  induction s as [|c s IH]; cbn [split].
  - constructor; [apply not_elem_of_nil|constructor].
  - case_decide as Hc.
    + constructor; [apply not_elem_of_nil|exact IH].
    + destruct (split sep s) as [|w ws]; [by repeat constructor; cbn; rewrite elem_of_cons, elem_of_nil; intros [?|?]|].
      inversion IH as [|? ? Hw Hws]; subst. constructor; [|done].
      cbn. rewrite elem_of_cons. intros [?|?]; [by subst|done].
Qed.

(** The first piece of a split starts the string. *)
Lemma split_head_prefix sep s w ws :
  split sep s = w :: ws → ∃ rest, s = w +:+ rest.
Proof.
  revert w ws. induction s as [|c s IH]; intros w ws; cbn [split].
  - intros [= <- <-]. by exists "".
  - case_decide as Hc.
    + intros [= <- <-]. by exists (String c s).
    + destruct (split_cons_inv sep s) as (w' & ws' & Hs). rewrite Hs.
      intros [= <- <-]. destruct (IH w' ws' Hs) as [rest ->]. by exists rest.
Qed.

Lemma join_cons_cons sep a b l :
  join sep (a :: b :: l) = a +:+ sep +:+ join sep (b :: l).
Proof. done. Qed.

(** Joining the pieces of a split gives the string back. *)
Lemma join_split sep s : join (String sep "") (split sep s) = s.
Proof.
  induction s as [|c s IH]; cbn [split]; [done|].
  destruct (split_cons_inv sep s) as (w & ws & Hs). rewrite Hs in *.
  case_decide as Hc.
  - subst c. by rewrite join_cons_cons, IH.
  - destruct ws as [|w' ws]; [cbn [join] in *; by rewrite IH|].
    rewrite join_cons_cons in *. by rewrite <-IH.
Qed.

Lemma split_app_sep sep w rest :
  sep ∉ chars w → split sep (w +:+ String sep rest) = w :: split sep rest.
Proof.
  induction w as [|c w IH]; intros Hw.
  - change ("" +:+ String sep rest) with (String sep rest). cbn [split].
    by rewrite decide_True.
  - cbn in Hw. rewrite elem_of_cons in Hw.
    change (String c w +:+ String sep rest) with (String c (w +:+ String sep rest)).
    cbn [split]. rewrite decide_False by (intros ->; apply Hw; by left).
    rewrite IH; [done|]. intros ?. apply Hw. by right.
Qed.

Lemma split_without_sep sep w : sep ∉ chars w → split sep w = [w].
Proof.
  induction w as [|c w IH]; intros Hw; [done|].
  cbn in Hw. rewrite elem_of_cons in Hw. cbn [split].
  rewrite decide_False by (intros ->; apply Hw; by left).
  rewrite IH; [done|]. intros ?. apply Hw. by right.
Qed.

(** Splitting a join of separator-free words gives the words back. *)
Lemma split_join sep ws :
  ws ≠ [] → Forall (λ w, sep ∉ chars w) ws →
  split sep (join (String sep "") ws) = ws.
Proof.
  induction ws as [|w ws IH]; [done|]. intros _ Hws.
  inversion Hws as [|? ? Hw Hws']; subst.
  destruct ws as [|w' ws]; [by apply split_without_sep|].
  rewrite join_cons_cons.
  change (w +:+ String sep "" +:+ join (String sep "") (w' :: ws))
    with (w +:+ String sep (join (String sep "") (w' :: ws))).
  rewrite split_app_sep by done. by rewrite IH.
Qed.

End split_join_facts.

(** ** Further properties of the API views *)

Section api_more.
Import ApiEndpoint.

Variable url_for : string → list (string * string) → string.

Local Abbreviation get_library_keyword := (get_library_keyword url_for).

(** X6.  The synopsis of a documentation text is one line: it holds no
    line feed, it starts the stripped text, and it has no leading white
    space. *)
Theorem synopsis_is_first_line keyword_doc :
  ("010"%char ∉ chars (synopsis keyword_doc)) ∧
  (∃ rest, PyStr.strip keyword_doc = synopsis keyword_doc +:+ rest) ∧
  PyStr.no_leading_space (synopsis keyword_doc).
Proof.
  unfold synopsis.
  destruct (split_cons_inv "010" (PyStr.strip keyword_doc)) as (w & ws & Hs).
  pose proof (split_no_sep "010" (PyStr.strip keyword_doc)) as Hsep.
  pose proof (split_head_prefix _ _ _ _ Hs) as [rest Hrest].
  rewrite Hs in *. cbn [head from_option id].
  inversion Hsep as [|? ? Hw _]; subst. split; [done|]. split; [by exists rest|].
  assert (PyStr.no_leading_space (PyStr.strip keyword_doc)) as Hlead.
  { apply rstrip_no_leading_space, lstrip_no_leading_space. }
  rewrite Hrest in Hlead. by destruct w.
Qed.

(** X7.  The single-keyword view answers 200, 404 or 500.  With a store
    attached whose collection lookup answers, it answers 500 in one case
    only: the store returned a record without the key [collection_id].  An
    exception of [kwdb.get_keyword] never gives a 500. *)
Theorem get_library_keyword_status app kwdb collection_id keyword collections :
  app_kwdb app = Some kwdb →
  kwdb_get_collections kwdb (Some (PyStr.lower (PyStr.strip collection_id))) None
    = inr collections →
  let resolved :=
    match collections with [c] => coll_collection_id c | _ => collection_id end in
  let view := get_library_keyword app collection_id keyword in
  (status view = 200 ∨ status view = 404 ∨ status view = 500) ∧
  (status view = 500 ↔
   length collections ≤ 1 ∧
   ∃ keyword_data,
     kwdb_get_keyword kwdb resolved keyword = inr (Some keyword_data) ∧
     keyword_data ≠ ∅ ∧ keyword_data !! "collection_id" = None).
Proof.
  intros Happ Hcols resolved view. subst view.
  unfold ApiEndpoint.get_library_keyword. rewrite Happ, Hcols. cbn.
  destruct collections as [|c [|c' cs]]; cbn; subst resolved.
  3: { split; [by right; left|]. split; [done|]. cbn. lia. }
  all: destruct (kwdb_get_keyword kwdb _ keyword) as [e|[d|]] eqn:Hdata; cbn;
    [split; [by right; left|]; split; [done|]; by intros (_ & ? & [=] & _)
    | |split; [by right; left|]; split; [done|]; by intros (_ & ? & [=] & _)].
  all: destruct (decide (d = ∅)) as [->|Hne]; cbn;
    [split; [by right; left|]; split; [done|]; by intros (_ & ? & [= <-] & ? & _)|].
  all: destruct (d !! "collection_id") as [cid|] eqn:Hcid; cbn.
  all: try (split; [by left|]; split; [done|];
            intros (_ & ? & [= <-] & _ & Hnone); by rewrite Hcid in Hnone).
  all: split; [by right; right|]; split; [|done]; intros _;
    (split; [lia|]); by exists d.
Qed.

(** X8.  A returned keyword is the record of the store with the key
    [library_url] set; the link is built from the [collection_id] of the
    record, not from the identifier of the request. *)
Theorem get_library_keyword_library_url app collection_id keyword r :
  get_library_keyword app collection_id keyword = Done r →
  ∃ kwdb resolved keyword_data cid,
    app_kwdb app = Some kwdb ∧
    kwdb_get_keyword kwdb resolved keyword = inr (Some keyword_data) ∧
    keyword_data !! "collection_id" = Some cid ∧
    r = jsonify_keyword
          (<["library_url" := url_for ".get_library" [("collection_id", cid)]]>
             keyword_data).
Proof.
  unfold ApiEndpoint.get_library_keyword.
  destruct (app_kwdb app) as [kwdb|]; [|done].
  destruct (kwdb_get_collections kwdb _ None) as [e|collections]; [done|]. cbn.
  assert (∀ resolved,
    (keyword_data ←
       match kwdb_get_keyword kwdb resolved keyword with
       | inr keyword_data => Done keyword_data
       | inl e => Abort 404 "Keyword not found or database error."
       end;
     match truthy keyword_data with
     | Some keyword_data =>
         match keyword_data !! "collection_id" with
         | Some cid =>
             Done (jsonify_keyword
                     (<["library_url" :=
                          url_for ".get_library" [("collection_id", cid)]]>
                        keyword_data))
         | None => Raise (KeyError "collection_id")
         end
     | None => Abort 404 "Keyword not found."
     end) = Done r →
    ∃ kwdb' resolved' keyword_data cid,
      Some kwdb = Some kwdb' ∧
      kwdb_get_keyword kwdb' resolved' keyword = inr (Some keyword_data) ∧
      keyword_data !! "collection_id" = Some cid ∧
      r = jsonify_keyword
            (<["library_url" := url_for ".get_library" [("collection_id", cid)]]>
               keyword_data)) as Hfetch.
  { intros resolved.
    destruct (kwdb_get_keyword kwdb resolved keyword) as [e|[d|]] eqn:Hdata;
      cbn; [done| |done].
    destruct (decide (d = ∅)); [done|].
    destruct (d !! "collection_id") as [cid|] eqn:Hcid; [|done].
    intros [= <-]. by exists kwdb, resolved, d, cid. }
  destruct collections as [|c [|c' cs]]; cbn; [apply Hfetch|apply Hfetch|done].
Qed.

(** X9.  The collection lookup ignores letter case and surrounding white
    space: two identifiers that agree after [strip().lower()] and match at
    least one collection give the same outcome. *)
Theorem get_library_keyword_identifier_normalised
    app kwdb collection_id collection_id' keyword c cs :
  app_kwdb app = Some kwdb →
  PyStr.lower (PyStr.strip collection_id) = PyStr.lower (PyStr.strip collection_id') →
  kwdb_get_collections kwdb (Some (PyStr.lower (PyStr.strip collection_id))) None
    = inr (c :: cs) →
  get_library_keyword app collection_id keyword =
  get_library_keyword app collection_id' keyword.
Proof.
  intros Happ Hsame Hcols. unfold ApiEndpoint.get_library_keyword.
  rewrite Happ, <-Hsame, Hcols. cbn. by destruct cs.
Qed.

End api_more.

(** ** Further properties of the search page *)

Section search_more.
Import Doc.

Variable url_for : string → list (string * string) → string.
Variable version : string.

Local Abbreviation make_row := (make_row url_for version).
Local Abbreviation search := (search url_for version).

Lemma filter_all {A} (P : A → Prop) `{∀ x, Decision (P x)} (l : list A) :
  Forall P l → filter P l = l.
Proof.
  induction 1 as [|x l Hx Hl IH]; [done|].
  by rewrite filter_cons_True, IH.
Qed.

Lemma filter_none {A} (P : A → Prop) `{∀ x, Decision (P x)} (l : list A) :
  Forall (λ x, ¬ P x) l → filter P l = [].
Proof.
  induction 1 as [|x l Hx Hl IH]; [done|].
  by rewrite filter_cons_False.
Qed.

Lemma startswith_refl s : PyStr.startswith s s = true.
Proof. induction s as [|c s IH]; [done|]. cbn. by rewrite decide_True. Qed.

Lemma startswith_trans p q s :
  PyStr.startswith p q = true → PyStr.startswith q s = true →
  PyStr.startswith p s = true.
Proof.
  revert q s. induction p as [|a p IH]; intros [|b q] [|c s]; cbn; try done.
  repeat case_decide; subst; try done. apply IH.
Qed.

(** X10.  The query is read without regard to letter case: two [pattern]
    parameters that differ in case only give the same page. *)
Theorem search_pattern_case_insensitive app args pattern pattern' :
  PyStr.lower pattern = PyStr.lower pattern' →
  search app (<["pattern" := pattern]> args) =
  search app (<["pattern" := pattern']> args).
Proof.
  intros Hcase. unfold Doc.search.
  by rewrite !args_get_insert_eq, <-!strip_lower, Hcase.
Qed.

(** X11.  A query without [in:] tokens reaches the store as it is (after
    the [name:] prefix is taken off), and the page lists every hit. *)
Theorem search_without_tokens app args kwdb cs pattern mode hits :
  app_config_kwdb app = Some kwdb →
  kwdb_get_collections kwdb None None = inr cs →
  search_mode (PyStr.lower (PyStr.strip (args_get args "pattern" "*")))
    = (pattern, mode) →
  Forall (λ word, ¬ is_in_token word) (PyStr.split " " pattern) →
  kwdb_search kwdb pattern mode = inr hits →
  search app args =
    Done (render_template "search.html"
            (SearchData (sort_by row_name (make_row <$> hits)) version pattern)).
Proof.
  intros Happ Hcs Hmode Hwords Hhits.
  assert (PyStr.join " " (filter (λ word, ¬ is_in_token word) (PyStr.split " " pattern))
          = pattern) as Hjoin.
  { rewrite filter_all by done. apply join_split. }
  rewrite (search_done url_for version app args kwdb cs pattern mode
             (filter (λ word, ¬ is_in_token word) (PyStr.split " " pattern))
             [] hits); try done.
  - by rewrite filter_kept_nil, Hjoin.
  - rewrite scan_words_eq. f_equal.
    rewrite filter_none; [done|]. eapply Forall_impl; [exact Hwords|]. by auto.
  - by rewrite Hjoin.
Qed.

(** X12.  The text handed to the store and shown on the page holds no
    [in:] token: every token of the query is taken out of it. *)
Theorem search_text_has_no_token app args template data :
  search app args = Done (render_template template data) →
  Forall (λ word, ¬ is_in_token word) (PyStr.split " " (data_pattern data)).
Proof.
  unfold Doc.search, config_kwdb.
  destruct (app_config_kwdb app) as [kwdb|]; [|done]. cbn.
  destruct (kwdb_get_collections kwdb None None) as [e|cs]; [done|]. cbn.
  destruct (search_mode _) as [pattern mode].
  rewrite scan_words_eq.
  destruct (kwdb_search kwdb _ _) as [e|hits]; [done|]. cbn.
  intros [= <- <-]. cbn.
  set (words := filter (λ word, ¬ is_in_token word) (PyStr.split " " pattern)).
  assert (Forall (λ word, ¬ is_in_token word) words) as Hwords.
  { apply Forall_forall. intros w Hw. by apply list_elem_of_filter in Hw as [? _]. }
  destruct words as [|w ws] eqn:Hws; [by repeat constructor|].
  rewrite <-Hws in *. rewrite split_join; [done|by rewrite Hws|].
  apply Forall_forall. intros w' Hw'. subst words.
  apply list_elem_of_filter in Hw' as [_ Hw'].
  pose proof (split_no_sep " " pattern) as Hsep.
  by apply (proj1 (Forall_forall _ _) Hsep).
Qed.

(** X13.  A shorter prefix selects more: every collection that the token
    of a prefix selects is selected by the token of each prefix of that
    prefix, and the bare token [in:] selects every collection. *)
Theorem token_prefix_monotone collections prefix prefix' :
  PyStr.startswith prefix prefix' = true →
  token_matches collections ("in:" +:+ prefix') ⊆
    token_matches collections ("in:" +:+ prefix) ∧
  token_matches collections "in:" = collections.
Proof.
  intros Hprefix. split.
  - intros name Hname. unfold token_matches in *.
    apply list_elem_of_filter in Hname as [Hname Hin].
    apply list_elem_of_filter. split; [|done].
    change (PyStr.slice_from 3 ("in:" +:+ prefix)) with prefix.
    change (PyStr.slice_from 3 ("in:" +:+ prefix')) with prefix' in Hname.
    by eapply startswith_trans.
  - unfold token_matches. apply filter_all. by apply Forall_forall.
Qed.

End search_more.

(** ** Further properties of [doc_to_html] *)

Section doc_to_html_more.
Import PyStr.

Lemma upper_lower_char c : upper_char (lower_char c) = upper_char c.
Proof. by destruct c as [[] [] [] [] [] [] [] []]. Qed.

Lemma upper_lower s : upper (lower s) = upper s.
Proof.
  induction s as [|c s IH]; [done|].
  cbn [upper lower map_chars] in *. by rewrite upper_lower_char, IH.
Qed.

Lemma truthy_lower s : truthy (lower s) = truthy s.
Proof. by destruct s. Qed.

(** What [doc_to_html] does with a text: nothing for an empty or absent
    one, one call of the converter otherwise. *)
Lemma doc_to_html_eq DocToHtml doc doc_format :
  Doc.doc_to_html DocToHtml doc doc_format =
  if decide (DocPages.has_text doc)
  then ([Doc.DocToHtml_call (DocPages.converter_format doc_format) (DocPages.text_of doc)],
        call (DocToHtml (DocPages.converter_format doc_format) (DocPages.text_of doc)))
  else ([], Done "").
Proof. by destruct doc as [[|c s]|]. Qed.

(** X14.  The format tag is read without regard to letter case, and an
    absent or empty tag stands for [ROBOT]. *)
Theorem doc_to_html_format_normalised DocToHtml doc doc_format doc_format' :
  lower doc_format = lower doc_format' →
  Doc.doc_to_html DocToHtml doc (Some doc_format) =
    Doc.doc_to_html DocToHtml doc (Some doc_format') ∧
  Doc.doc_to_html DocToHtml doc None = Doc.doc_to_html DocToHtml doc (Some "robot") ∧
  Doc.doc_to_html DocToHtml doc (Some "") = Doc.doc_to_html DocToHtml doc (Some "robot").
Proof.
  intros Hcase. split; [|by destruct doc as [[|c s]|]].
  rewrite !doc_to_html_eq. case_decide; [|done].
  assert (∀ f, DocPages.converter_format (Some f) =
               upper (if truthy (lower f) then lower f else "ROBOT")) as Hfmt.
  { intros f. unfold DocPages.converter_format. rewrite truthy_lower.
    destruct (truthy f); [by rewrite upper_lower|done]. }
  by rewrite !Hfmt, Hcase.
Qed.

End doc_to_html_more.

(** ** The library pages *)

Section pages_facts.
Import DocPages.

Variable url_for : string → list (string * string) → string.
Variable DocToHtml : string → string → exn + string.
Variable version : string.
Variable json_loads : string → exn + list string.
Variable get_collection : Kwdb → string → exn + libdoc_dict.
Variable get_keyword_data : Kwdb → string → exn + list keyword_data_row.
Variable get_keyword_hierarchy : Kwdb → exn + list hierarchy_library.

Local Abbreviation append_keyword := (append_keyword DocToHtml json_loads).
Local Abbreviation converted := (converted DocToHtml).
Local Abbreviation entry_of := (entry_of DocToHtml json_loads).

Lemma foldl_snoc_map {A B} (f : A → B) (l : list A) (acc : list B) :
  foldl (λ done x, done ++ [f x]) acc l = acc ++ (f <$> l).
Proof.
  revert acc. induction l as [|x l IH]; intros acc; cbn [foldl].
  - by rewrite fmap_nil, app_nil_r.
  - by rewrite IH, fmap_cons, <-app_assoc.
Qed.

Lemma traced_eta {A} (t : traced A) : Traced (calls t) (result t) = t.
Proof. by destruct t. Qed.

Lemma bind_quiet_done {A B} (a : A) (k : A → traced B) :
  (quiet (Done a) ≫= k) = k a.
Proof. unfold quiet, mbind, traced_bind. cbn. apply traced_eta. Qed.

Lemma bind_quiet_raise {A B} (e : exn) (k : A → traced B) :
  (quiet (Raise e) ≫= k) = quiet (Raise e).
Proof. done. Qed.

Lemma converted_eq doc doc_format :
  converted doc doc_format =
  if decide (has_text doc)
  then Traced [Doc.DocToHtml_call (converter_format doc_format) (text_of doc)]
              (call (DocToHtml (converter_format doc_format) (text_of doc)))
  else Traced [] (Done "").
Proof. unfold converted. rewrite doc_to_html_eq. by case_decide. Qed.

Lemma append_keyword_inv doc_format keyword acc row :
  match result (append_keyword doc_format keyword acc row) with
  | Done out =>
      ∃ entry, out = acc ++ [entry] ∧ entry_of doc_format keyword row entry ∧
               calls (append_keyword doc_format keyword acc row)
               = calls_of doc_format (kd_doc row)
  | Abort _ _ => False
  | Raise e =>
      (json_loads (kd_args row) = inl e ∧
       calls (append_keyword doc_format keyword acc row) = []) ∨
      (has_text (kd_doc row) ∧
       DocToHtml (converter_format doc_format) (text_of (kd_doc row)) = inl e ∧
       calls (append_keyword doc_format keyword acc row)
       = calls_of doc_format (kd_doc row))
  end.
Proof.
  unfold DocPages.append_keyword.
  destruct (json_loads (kd_args row)) as [e|args_list] eqn:Hargs; cbn [call].
  { rewrite bind_quiet_raise. cbn. by left. }
  rewrite bind_quiet_done.
  fold (converted (kd_doc row) doc_format). rewrite converted_eq.
  unfold calls_of, entry_of.
  destruct (decide (has_text (kd_doc row))) as [Htext|Htext].
  - destruct (DocToHtml _ _) as [e|html] eqn:Hhtml; cbn.
    + by right.
    + eexists. split; [done|]. cbn.
      repeat split. by exists args_list.
  - cbn. eexists. split; [done|]. cbn.
    repeat split. by exists args_list.
Qed.

Lemma result_bind {A B} (m : traced A) (k : A → traced B) :
  result (m ≫= k) =
  match result m with
  | Done a => result (k a)
  | Abort code description => Abort code description
  | Raise e => Raise e
  end.
Proof. unfold mbind, traced_bind. by destruct (result m). Qed.

Lemma calls_bind {A B} (m : traced A) (k : A → traced B) :
  calls (m ≫= k) =
  calls m ++ match result m with Done a => calls (k a) | _ => [] end.
Proof.
  unfold mbind, traced_bind. destruct (result m); cbn; by rewrite ?app_nil_r.
Qed.

(** The loop over the keyword rows: when it returns, it has appended one
    entry for each row, in order, and called the converter for the rows
    with a text. *)
Lemma for_each_append_keyword_done doc_format keyword rows acc out :
  result (for_each (append_keyword doc_format keyword) acc rows) = Done out →
  ∃ entries,
    out = acc ++ entries ∧
    Forall2 (entry_of doc_format keyword) rows entries ∧
    calls (for_each (append_keyword doc_format keyword) acc rows)
    = mjoin ((λ row, calls_of doc_format (kd_doc row)) <$> rows).
Proof.
  revert acc. induction rows as [|row rows IH]; intros acc; cbn [for_each].
  - intros [= <-]. exists []. by rewrite app_nil_r.
  - pose proof (append_keyword_inv doc_format keyword acc row) as Hrow.
    rewrite result_bind, calls_bind.
    destruct (result (append_keyword doc_format keyword acc row))
      as [acc'| |e]; [|done|done].
    destruct Hrow as (entry & -> & Hentry & Hcalls).
    intros Hrest. destruct (IH _ Hrest) as (entries & -> & Hall & Hcalls').
    exists (entry :: entries). split; [by rewrite <-app_assoc|].
    split; [by constructor|]. by rewrite Hcalls, Hcalls'.
Qed.

(** The loop never aborts, and every call it makes is for a row with a
    text, in the format of the library. *)
Lemma for_each_append_keyword_calls doc_format keyword rows acc :
  (∀ code description,
     result (for_each (append_keyword doc_format keyword) acc rows)
     ≠ Abort code description) ∧
  Forall (λ c, ∃ row, row ∈ rows ∧ has_text (kd_doc row) ∧
               c = Doc.DocToHtml_call (converter_format doc_format)
                     (text_of (kd_doc row)))
         (calls (for_each (append_keyword doc_format keyword) acc rows)).
Proof.
  revert acc. induction rows as [|row rows IH]; intros acc; cbn [for_each].
  - split; [done|constructor].
  - pose proof (append_keyword_inv doc_format keyword acc row) as Hrow.
    assert (Forall (λ c, ∃ row', row' ∈ row :: rows ∧ has_text (kd_doc row') ∧
                      c = Doc.DocToHtml_call (converter_format doc_format)
                            (text_of (kd_doc row')))
                   (calls_of doc_format (kd_doc row))) as Hcalls_row.
    { unfold calls_of. case_decide; [|constructor].
      constructor; [|constructor]. exists row. by split; [apply list_elem_of_here|]. }
    rewrite result_bind, calls_bind.
    destruct (result (append_keyword doc_format keyword acc row))
      as [acc'| |e]; [|done|].
    + destruct Hrow as (entry & -> & _ & ->).
      destruct (IH (acc ++ [entry])) as [Hno Hcalls]. split; [done|].
      apply Forall_app. split; [done|].
      eapply Forall_impl; [exact Hcalls|]. intros c (row' & ? & ? & ?).
      exists row'. by split; [apply list_elem_of_further|].
    + split; [done|]. rewrite app_nil_r.
      destruct Hrow as [[_ ->]|(_ & _ & ->)]; [constructor|done].
Qed.

End pages_facts.

(** ** Properties of the library pages *)

Section pages_claims.
Import DocPages.

Variable url_for : string → list (string * string) → string.
Variable DocToHtml : string → string → exn + string.
Variable version : string.
Variable json_loads : string → exn + list string.
Variable get_collection : Kwdb → string → exn + libdoc_dict.
Variable get_keyword_data : Kwdb → string → exn + list keyword_data_row.
Variable get_keyword_hierarchy : Kwdb → exn + list hierarchy_library.

Local Abbreviation get_collections := (get_collections url_for).
Local Abbreviation get_navpanel_data := (get_navpanel_data url_for get_keyword_hierarchy).
Local Abbreviation doc := (doc url_for version get_keyword_hierarchy).
Local Abbreviation index := (index url_for version).
Local Abbreviation doc_for_library :=
  (doc_for_library url_for DocToHtml version json_loads
     get_collection get_keyword_data get_keyword_hierarchy).
Local Abbreviation append_keyword := (append_keyword DocToHtml json_loads).
Local Abbreviation converted := (converted DocToHtml).
Local Abbreviation entry_of := (entry_of DocToHtml json_loads).

(** X15.  [get_collections] asks the store for the collections of one
    type, with no name pattern, and returns all of them in the order of the
    store, each with the link to its page; an exception of the store
    escapes. *)
Theorem get_collections_links kwdb libtype :
  match kwdb_get_collections kwdb None (Some libtype) with
  | inr collections =>
      get_collections kwdb libtype =
      Done ((λ c, CollectionLink c
                    (url_for ".doc_for_library"
                       [("collection_id", coll_collection_id c)])) <$> collections)
  | inl e => get_collections kwdb libtype = Raise e
  end.
Proof.
  unfold DocPages.get_collections.
  destruct (kwdb_get_collections kwdb None (Some libtype)) as [e|cs]; [done|].
  cbn. f_equal.
  apply (foldl_snoc_map
           (λ c, CollectionLink c
                   (url_for ".doc_for_library"
                      [("collection_id", coll_collection_id c)])) cs []).
Qed.

(** X16.  [get_navpanel_data] keeps the hierarchy of the store, library by
    library and keyword by keyword, and sets the links: a library links to
    its own page, a keyword to the page of the library it is listed under,
    with its own name. *)
Theorem get_navpanel_data_links kwdb :
  match get_keyword_hierarchy kwdb with
  | inr data =>
      get_navpanel_data kwdb =
      Done ((λ library,
               HierarchyLibrary (hl_collection_id library) (hl_name library)
                 ((λ keyword,
                     HierarchyKeyword (hk_name keyword)
                       (Some (url_for ".doc_for_library"
                                [("collection_id", hl_collection_id library);
                                 ("keyword", hk_name keyword)])))
                  <$> hl_keywords library)
                 (Some (url_for ".doc_for_library"
                          [("collection_id", hl_collection_id library)])))
            <$> data)
  | inl e => get_navpanel_data kwdb = Raise e
  end.
Proof.
  unfold DocPages.get_navpanel_data.
  destruct (get_keyword_hierarchy kwdb) as [e|data]; [done|]. cbn. f_equal.
  rewrite (foldl_snoc_map
             (λ library,
                HierarchyLibrary (hl_collection_id library) (hl_name library)
                  (link_keywords url_for library)
                  (Some (url_for ".doc_for_library"
                           [("collection_id", hl_collection_id library)]))) data []).
  cbn. apply list_fmap_ext. intros _ library _. f_equal.
  unfold link_keywords.
  apply (foldl_snoc_map
           (λ keyword,
              HierarchyKeyword (hk_name keyword)
                (Some (url_for ".doc_for_library"
                         [("collection_id", hl_collection_id library);
                          ("keyword", hk_name keyword)])))
           (hl_keywords library) []).
Qed.

(** X17.  Whenever the home page is rendered, the index page is rendered
    too, with the same libraries and resource files; the home page is the
    template [home.html] with no [libdoc]. *)
Theorem index_agrees_with_doc app template data :
  doc app = Done (render_template template data) →
  ∃ d,
    template = "home.html" ∧ data = data_home d ∧ home_libdoc d = None ∧
    index app =
      Done (render_template "libraryNames.html"
              (data_names (NamesData (home_libraries d) version
                                     (home_resource_files d)))).
Proof.
  unfold DocPages.doc, DocPages.index.
  destruct (Doc.config_kwdb app) as [kwdb| |]; [|done|done]. cbn.
  destruct (DocPages.get_collections url_for kwdb "library") as [libraries| |];
    [|done|done]. cbn.
  destruct (DocPages.get_collections url_for kwdb "resource") as [resources| |];
    [|done|done]. cbn.
  destruct (DocPages.get_navpanel_data _ _ kwdb) as [hierarchy| |]; [|done|done].
  cbn. intros [= <- <-]. by eexists.
Qed.

Lemma calls_converted doc doc_format :
  calls (converted doc doc_format) = calls_of doc_format doc ∧
  (∀ code description, result (converted doc doc_format) ≠ Abort code description) ∧
  (∀ html, result (converted doc doc_format) = Done html →
     if decide (has_text doc)
     then DocToHtml (converter_format doc_format) (text_of doc) = inr html
     else html = "").
Proof.
  rewrite converted_eq. unfold calls_of.
  case_decide; cbn.
  - destruct (DocToHtml _ _) as [e|html']; cbn; (split; [done|]); (split; [done|]).
    + by intros html [=].
    + by intros html [= ->].
  - split; [done|]. split; [done|]. by intros html [= <-].
Qed.

Lemma get_navpanel_data_no_abort kwdb code description :
  get_navpanel_data kwdb ≠ Abort code description.
Proof.
  unfold DocPages.get_navpanel_data. by destruct (get_keyword_hierarchy kwdb).
Qed.

(** The page, once the store has given the library and its keyword
    rows. *)
Lemma doc_for_library_unfold app collection_id keyword kwdb libdoc rows :
  app_config_kwdb app = Some kwdb →
  get_collection kwdb collection_id = inr libdoc →
  get_keyword_data kwdb collection_id = inr rows →
  doc_for_library app collection_id keyword =
  (keywords ← for_each (append_keyword (lib_doc_format libdoc) keyword) [] rows;
   doc ← quiet (match libdoc !! "doc" with
                | Some doc => Done doc
                | None => Raise (KeyError "doc")
                end);
   doc_html ← converted doc (lib_doc_format libdoc);
   hierarchy ← quiet (get_navpanel_data kwdb);
   mret (render_template "library.html"
           (data_library
              (LibraryData keywords version (<["doc" := Some doc_html]> libdoc)
                           hierarchy collection_id)))).
Proof.
  intros Happ Hlib Hrows. unfold DocPages.doc_for_library, Doc.config_kwdb.
  rewrite Happ, bind_quiet_done, Hlib. cbn [call].
  rewrite bind_quiet_done, Hrows. cbn [call]. by rewrite bind_quiet_done.
Qed.

(** What a rendered library page is made of. *)
Lemma doc_for_library_done app collection_id keyword kwdb libdoc rows r :
  app_config_kwdb app = Some kwdb →
  get_collection kwdb collection_id = inr libdoc →
  get_keyword_data kwdb collection_id = inr rows →
  result (doc_for_library app collection_id keyword) = Done r →
  ∃ entries doc html hierarchy,
    Forall2 (entry_of (lib_doc_format libdoc) keyword) rows entries ∧
    libdoc !! "doc" = Some doc ∧
    (if decide (has_text doc)
     then DocToHtml (converter_format (lib_doc_format libdoc)) (text_of doc) = inr html
     else html = "") ∧
    get_navpanel_data kwdb = Done hierarchy ∧
    r = render_template "library.html"
          (data_library
             (LibraryData entries version (<["doc" := Some html]> libdoc)
                          hierarchy collection_id)) ∧
    calls (doc_for_library app collection_id keyword) =
      mjoin ((λ row, calls_of (lib_doc_format libdoc) (kd_doc row)) <$> rows) ++
      calls_of (lib_doc_format libdoc) doc.
Proof.
  intros Happ Hlib Hrows.
  rewrite (doc_for_library_unfold _ _ _ _ _ _ Happ Hlib Hrows).
  rewrite result_bind, calls_bind.
  destruct (result (for_each _ [] rows)) as [keywords| |] eqn:Hloop; [|done|done].
  apply for_each_append_keyword_done in Hloop as (entries & -> & Hentries & ->).
  destruct (libdoc !! "doc") as [doc|]; [|done].
  rewrite bind_quiet_done, result_bind, calls_bind.
  destruct (calls_converted doc (lib_doc_format libdoc)) as (-> & _ & Hhtml).
  destruct (result (converted doc (lib_doc_format libdoc))) as [html| |];
    [|done|done].
  specialize (Hhtml html eq_refl).
  destruct (get_navpanel_data kwdb) as [hierarchy| |] eqn:Hnav; [|done|done].
  rewrite bind_quiet_done. cbn. intros [= <-].
  exists entries, doc, html, hierarchy. by rewrite app_nil_r.
Qed.

(** The page answers 200 or 500: it never aborts. *)
Lemma doc_for_library_no_abort app collection_id keyword code description :
  result (doc_for_library app collection_id keyword) ≠ Abort code description.
Proof.
  unfold DocPages.doc_for_library, Doc.config_kwdb.
  destruct (app_config_kwdb app) as [kwdb|]; [|done]. rewrite bind_quiet_done.
  destruct (get_collection kwdb collection_id) as [e|libdoc]; [done|].
  cbn [call]. rewrite bind_quiet_done.
  destruct (get_keyword_data kwdb collection_id) as [e|rows]; [done|].
  cbn [call]. rewrite bind_quiet_done, result_bind.
  pose proof (for_each_append_keyword_calls DocToHtml json_loads
                (lib_doc_format libdoc) keyword rows []) as [Hloop _].
  destruct (result (for_each _ [] rows)) as [keywords| |];
    [|exfalso; by eapply Hloop|done].
  destruct (libdoc !! "doc") as [doc|]; [|done].
  rewrite bind_quiet_done, result_bind.
  fold (converted doc (lib_doc_format libdoc)).
  destruct (calls_converted doc (lib_doc_format libdoc)) as (_ & Hconv & _).
  destruct (result (converted doc (lib_doc_format libdoc))) as [html| |];
    [|exfalso; by eapply Hconv|done].
  pose proof (get_navpanel_data_no_abort kwdb) as Hnav.
  destruct (get_navpanel_data kwdb) as [hierarchy| |];
    [done|exfalso; by eapply Hnav|done].
Qed.

(** X18.  A rendered library page lists one entry for each keyword row of
    the store, in order: the entry has the name of the row, its arguments
    joined with a comma and a space, the converted documentation (the empty
    string for an empty or absent one), and it is marked as the target
    exactly when its name is the requested keyword; without a requested
    keyword no entry is marked. *)
Theorem doc_for_library_entries app collection_id keyword kwdb libdoc rows template data :
  app_config_kwdb app = Some kwdb →
  get_collection kwdb collection_id = inr libdoc →
  get_keyword_data kwdb collection_id = inr rows →
  result (doc_for_library app collection_id keyword)
    = Done (render_template template data) →
  ∃ d,
    template = "library.html" ∧ data = data_library d ∧
    library_collection_id d = collection_id ∧
    Forall2 (entry_of (lib_doc_format libdoc) keyword) rows (library_keywords d) ∧
    (keyword = None → Forall (λ entry, lk_target entry = false) (library_keywords d)).
Proof.
  intros Happ Hlib Hrows Hdone.
  destruct (doc_for_library_done _ _ _ _ _ _ _ Happ Hlib Hrows Hdone)
    as (entries & doc & html & hierarchy & Hentries & _ & _ & _ & [= -> ->] & _).
  eexists. repeat split; [done|]. intros ->. cbn.
  clear Hdone Hrows. induction Hentries as [|row entry rows entries Hentry _ IH];
    [constructor|].
  constructor; [|exact IH]. by destruct Hentry as (_ & -> & _).
Qed.

(** X19.  The converter is only ever called with a non-empty text, and
    always with the one format of the library; on a rendered page it has
    been called once for each keyword with a text, in order, and then once
    for the text of the library if it has one. *)
Theorem doc_for_library_converter_calls app collection_id keyword kwdb libdoc rows :
  app_config_kwdb app = Some kwdb →
  get_collection kwdb collection_id = inr libdoc →
  get_keyword_data kwdb collection_id = inr rows →
  Forall (λ c, ∃ text, text ≠ "" ∧
               c = Doc.DocToHtml_call (converter_format (lib_doc_format libdoc)) text)
         (calls (doc_for_library app collection_id keyword)) ∧
  (∀ r doc,
     result (doc_for_library app collection_id keyword) = Done r →
     libdoc !! "doc" = Some doc →
     calls (doc_for_library app collection_id keyword) =
       mjoin ((λ row, calls_of (lib_doc_format libdoc) (kd_doc row)) <$> rows) ++
       calls_of (lib_doc_format libdoc) doc).
Proof.
  intros Happ Hlib Hrows. split.
  - rewrite (doc_for_library_unfold _ _ _ _ _ _ Happ Hlib Hrows).
    assert (∀ doc, has_text doc → text_of doc ≠ "") as Htext.
    { by intros [[|c s]|]. }
    rewrite calls_bind. apply Forall_app. split.
    + pose proof (for_each_append_keyword_calls DocToHtml json_loads
                    (lib_doc_format libdoc) keyword rows []) as [_ Hloop].
      eapply Forall_impl; [exact Hloop|]. intros c (row & _ & Hrow & ->).
      exists (text_of (kd_doc row)). by split; [apply Htext|].
    + destruct (result (for_each _ [] rows)) as [keywords| |]; [|constructor..].
      destruct (libdoc !! "doc") as [doc|]; [|constructor].
      rewrite bind_quiet_done, calls_bind. apply Forall_app. split.
      * destruct (calls_converted doc (lib_doc_format libdoc)) as (-> & _ & _).
        unfold calls_of. case_decide; [|constructor].
        constructor; [|constructor]. exists (text_of doc). by split; [apply Htext|].
      * destruct (result (converted doc (lib_doc_format libdoc)));
          [|constructor..].
        destruct (get_navpanel_data kwdb); [|constructor..].
        rewrite bind_quiet_done. constructor.
  - intros r doc Hdone Hdoc.
    destruct (doc_for_library_done _ _ _ _ _ _ _ Happ Hlib Hrows Hdone)
      as (_ & doc' & _ & _ & _ & Hdoc' & _ & _ & _ & ->).
    rewrite Hdoc in Hdoc'. by injection Hdoc' as <-.
Qed.

(** X20.  A failure of the converter is not isolated on this page: if it
    raises on the text of any keyword of the library, no page is rendered
    and the request ends with status 500. *)
Theorem doc_for_library_converter_failure
    app collection_id keyword kwdb libdoc rows row e :
  app_config_kwdb app = Some kwdb →
  get_collection kwdb collection_id = inr libdoc →
  get_keyword_data kwdb collection_id = inr rows →
  row ∈ rows →
  has_text (kd_doc row) →
  DocToHtml (converter_format (lib_doc_format libdoc)) (text_of (kd_doc row)) = inl e →
  status (result (doc_for_library app collection_id keyword)) = 500.
Proof.
  intros Happ Hlib Hrows Hrow Htext Hfail.
  pose proof (doc_for_library_no_abort app collection_id keyword) as Hno.
  destruct (result (doc_for_library app collection_id keyword)) as [r| |] eqn:Hres;
    [|by edestruct Hno|done].
  exfalso.
  destruct (doc_for_library_done _ _ _ _ _ _ _ Happ Hlib Hrows Hres)
    as (entries & _ & _ & _ & Hentries & _).
  apply list_elem_of_lookup in Hrow as [i Hi].
  destruct (Forall2_lookup_l _ _ _ _ _ Hentries Hi) as (entry & _ & Hentry).
  destruct Hentry as (_ & _ & _ & Hhtml).
  rewrite decide_True in Hhtml by done. by rewrite Hfail in Hhtml.
Qed.

(** X21.  The library record handed to the template is the record of the
    store with its [doc] replaced by the converted text, which is a string
    even when the stored one is [None]; every other key is as the store
    gave it. *)
Theorem doc_for_library_libdoc app collection_id keyword kwdb libdoc rows template d :
  app_config_kwdb app = Some kwdb →
  get_collection kwdb collection_id = inr libdoc →
  get_keyword_data kwdb collection_id = inr rows →
  result (doc_for_library app collection_id keyword)
    = Done (render_template template (data_library d)) →
  ∃ doc html,
    libdoc !! "doc" = Some doc ∧
    (if decide (has_text doc)
     then DocToHtml (converter_format (lib_doc_format libdoc)) (text_of doc) = inr html
     else html = "") ∧
    library_libdoc d !! "doc" = Some (Some html) ∧
    (∀ key, key ≠ "doc" → library_libdoc d !! key = libdoc !! key) ∧
    library_version d = version.
Proof.
  intros Happ Hlib Hrows Hdone.
  destruct (doc_for_library_done _ _ _ _ _ _ _ Happ Hlib Hrows Hdone)
    as (entries & doc & html & hierarchy & _ & Hdoc & Hhtml & _ & [= -> ->] & _).
  exists doc, html. cbn. repeat split; [done|done|by rewrite lookup_insert_eq|].
  intros key Hkey. by rewrite lookup_insert_ne.
Qed.

End pages_claims.

(** ** The further properties on the example stores *)

(** The hypothesis of [fields_order_and_repetition_irrelevant] holds for
    two spellings of the fields [name] and [doc]. *)
Lemma fields_order_and_repetition_irrelevant_witness :
  ApiEndpoint.get_library_keywords Demo.url_for Demo.html_format Demo.app
    (<["fields" := "name,doc"]> ∅) "1" =
  ApiEndpoint.get_library_keywords Demo.url_for Demo.html_format Demo.app
    (<["fields" := "doc, name,doc"]> ∅) "1".
Proof.
  apply (fields_order_and_repetition_irrelevant Demo.url_for Demo.html_format
           Demo.app ∅ "1" "name,doc" "doc, name,doc").
  intros f.
  change (f ∈ ["name"; "doc"] ↔ f ∈ ["doc"; "name"; "doc"]).
  rewrite !elem_of_cons, elem_of_nil. tauto.
Defined.

(** The hypotheses of [unknown_collection_gives_empty_list] hold for the
    example store and the identifier [9]. *)
Lemma unknown_collection_gives_empty_list_witness :
  ApiEndpoint.get_library_keywords Demo.url_for Demo.html_format Demo.app ∅ "9"
    = Done (jsonify_keywords []) ∧
  status (ApiEndpoint.get_library_keywords Demo.url_for Demo.html_format Demo.app ∅ "9")
    = 200.
Proof.
  apply (unknown_collection_gives_empty_list Demo.url_for Demo.html_format
           Demo.app ∅ "9" Demo.kwdb [Demo.log; Demo.click; Demo.open_page]).
  - reflexivity.
  - reflexivity.
  - discriminate.
  - intros kw Hkw.
    repeat (apply elem_of_cons in Hkw as [->|Hkw]; [discriminate|]).
    by apply elem_of_nil in Hkw.
Defined.

(** The hypothesis of [formatter_unused_without_htmldoc] holds for a
    request of the field [name]; the other formatter always fails. *)
Lemma formatter_unused_without_htmldoc_witness :
  ApiEndpoint.get_library_keywords Demo.url_for Demo.html_format Demo.app
    (<["fields" := "name"]> ∅) "" =
  ApiEndpoint.get_library_keywords Demo.url_for (λ _, inl (Exception "never"))
    Demo.app (<["fields" := "name"]> ∅) "".
Proof.
  apply (formatter_unused_without_htmldoc Demo.url_for Demo.html_format
           (λ _, inl (Exception "never")) Demo.app (<["fields" := "name"]> ∅) "").
  change ("htmldoc" ∉ ["name"]).
  intros H. apply list_elem_of_singleton in H. discriminate H.
Defined.

(** The hypotheses of [get_keywords_all_collections] hold for the example
    store and a request without parameters. *)
Lemma get_keywords_all_collections_witness :
  ApiEndpoint.get_keywords Demo.url_for Demo.html_format Demo.app ∅ =
  Done (jsonify_keywords
          (ApiEndpoint.keyword_object Demo.url_for Demo.html_format ∅
             <$> [Demo.log; Demo.click; Demo.open_page])).
Proof.
  apply (get_keywords_all_collections Demo.url_for Demo.html_format Demo.app ∅
           Demo.kwdb [Demo.log; Demo.click; Demo.open_page]); reflexivity.
Defined.

(** The hypotheses of [get_library_keyword_status] hold for the example
    store; an exception of the store gives 404. *)
Lemma get_library_keyword_status_witness :
  status (ApiEndpoint.get_library_keyword Demo.url_for Demo.app "1" "Crash") = 200 ∨
  status (ApiEndpoint.get_library_keyword Demo.url_for Demo.app "1" "Crash") = 404 ∨
  status (ApiEndpoint.get_library_keyword Demo.url_for Demo.app "1" "Crash") = 500.
Proof.
  apply (get_library_keyword_status Demo.url_for Demo.app Demo.kwdb "1" "Crash" []);
    reflexivity.
Defined.

(** The hypothesis of [get_library_keyword_library_url] holds for a request
    by name on the example store. *)
Lemma get_library_keyword_library_url_witness :
  ∃ kwdb resolved keyword_data cid,
    app_kwdb Demo.app = Some kwdb ∧
    kwdb_get_keyword kwdb resolved "Log" = inr (Some keyword_data) ∧
    keyword_data !! "collection_id" = Some cid ∧
    jsonify_keyword
      (<["library_url" := ".get_library?collection_id=1"]>
       (<["collection_id" := "1"]> (<["name" := "Log"]> ∅))) =
    jsonify_keyword
      (<["library_url" := Demo.url_for ".get_library" [("collection_id", cid)]]>
         keyword_data).
Proof.
  apply (get_library_keyword_library_url Demo.url_for Demo.app "BuiltIn" "Log").
  vm_compute. reflexivity.
Defined.

(** The hypotheses of [get_library_keyword_identifier_normalised] hold for
    two spellings of the name of the standard library. *)
Lemma get_library_keyword_identifier_normalised_witness :
  ApiEndpoint.get_library_keyword Demo.url_for Demo.app "BuiltIn" "Log" =
  ApiEndpoint.get_library_keyword Demo.url_for Demo.app " builtin " "Log".
Proof.
  apply (get_library_keyword_identifier_normalised Demo.url_for Demo.app Demo.kwdb
           "BuiltIn" " builtin " "Log" Demo.builtin []); reflexivity.
Defined.

(** The hypothesis of [search_pattern_case_insensitive] holds for two
    spellings of one query. *)
Lemma search_pattern_case_insensitive_witness :
  Doc.search Demo.url_for "1.0" Demo.app (<["pattern" := "IN:Sel Click"]> ∅) =
  Doc.search Demo.url_for "1.0" Demo.app (<["pattern" := "in:sel click"]> ∅).
Proof.
  apply (search_pattern_case_insensitive Demo.url_for "1.0" Demo.app ∅
           "IN:Sel Click" "in:sel click").
  reflexivity.
Defined.

(** The hypotheses of [search_without_tokens] hold for the example store
    and a query for names. *)
Lemma search_without_tokens_witness :
  Doc.search Demo.url_for "1.0" Demo.app (<["pattern" := "Name: click element"]> ∅) =
  Done (Doc.render_template "search.html"
          (Doc.SearchData
             (Doc.sort_by Doc.row_name
                (Doc.make_row Demo.url_for "1.0" <$>
                 [SearchHit "2" "SeleniumLibrary" "Click Element" "Clicks.";
                  SearchHit "3" "My Lib" "Click Here" "Clicks here.";
                  SearchHit "1" "BuiltIn" "Click" "Not really."]))
             "1.0" "click element")).
Proof.
  apply (search_without_tokens Demo.url_for "1.0" Demo.app
           (<["pattern" := "Name: click element"]> ∅) Demo.kwdb
           [Demo.builtin; Demo.selenium; Demo.my_lib] "click element" "name").
  - reflexivity.
  - reflexivity.
  - reflexivity.
  - repeat constructor; discriminate.
  - reflexivity.
Defined.

(** The hypothesis of [search_text_has_no_token] holds for a query with
    two tokens on the example store. *)
Lemma search_text_has_no_token_witness :
  Forall (λ word, ¬ Doc.is_in_token word) (PyStr.split " " "click").
Proof.
  apply (search_text_has_no_token Demo.url_for "1.0" Demo.app
           (<["pattern" := " in:Sel in:my CLICK "]> ∅) "search.html"
           (Doc.SearchData
              [Doc.SearchRow "2" "SeleniumLibrary" "Click Element" "Clicks." "1.0"
                 ".doc_for_library?collection_id=2&keyword=Click Element"
                 "row-seleniumlibrary.click-element";
               Doc.SearchRow "3" "My Lib" "Click Here" "Clicks here." "1.0"
                 ".doc_for_library?collection_id=3&keyword=Click Here"
                 "row-my lib.click-here"]
              "1.0" "click")).
  vm_compute. reflexivity.
Defined.

(** The hypothesis of [token_prefix_monotone] holds for the prefixes [bu]
    and [builtin]. *)
Lemma token_prefix_monotone_witness :
  Doc.token_matches ["builtin"; "seleniumlibrary"; "bundle"] ("in:" +:+ "builtin") ⊆
    Doc.token_matches ["builtin"; "seleniumlibrary"; "bundle"] ("in:" +:+ "bu") ∧
  Doc.token_matches ["builtin"; "seleniumlibrary"; "bundle"] "in:" =
    ["builtin"; "seleniumlibrary"; "bundle"].
Proof.
  apply (token_prefix_monotone ["builtin"; "seleniumlibrary"; "bundle"] "bu" "builtin").
  reflexivity.
Defined.

(** The hypothesis of [doc_to_html_format_normalised] holds for two
    spellings of the native format. *)
Lemma doc_to_html_format_normalised_witness :
  Doc.doc_to_html Demo.DocToHtml (Some "Logs.") (Some "Robot") =
    Doc.doc_to_html Demo.DocToHtml (Some "Logs.") (Some "ROBOT") ∧
  Doc.doc_to_html Demo.DocToHtml (Some "Logs.") None =
    Doc.doc_to_html Demo.DocToHtml (Some "Logs.") (Some "robot") ∧
  Doc.doc_to_html Demo.DocToHtml (Some "Logs.") (Some "") =
    Doc.doc_to_html Demo.DocToHtml (Some "Logs.") (Some "robot").
Proof.
  apply (doc_to_html_format_normalised Demo.DocToHtml (Some "Logs.") "Robot" "ROBOT").
  reflexivity.
Defined.

(** The hypothesis of [index_agrees_with_doc] holds for the example
    store. *)
Lemma index_agrees_with_doc_witness :
  ∃ d,
    "home.html" = "home.html" ∧
    DocPages.data_home
      (DocPages.HomeData DemoPages.links "1.0" None DemoPages.hierarchy DemoPages.links)
      = DocPages.data_home d ∧
    DocPages.home_libdoc d = None ∧
    DocPages.index Demo.url_for "1.0" Demo.app =
      Done (DocPages.render_template "libraryNames.html"
              (DocPages.data_names
                 (DocPages.NamesData (DocPages.home_libraries d) "1.0"
                                     (DocPages.home_resource_files d)))).
Proof.
  apply (index_agrees_with_doc Demo.url_for "1.0" DemoPages.get_keyword_hierarchy
           Demo.app "home.html").
  vm_compute. reflexivity.
Defined.

(** The hypotheses of [doc_for_library_entries] hold for the page of the
    standard library of the example store. *)
Lemma doc_for_library_entries_witness :
  ∃ d,
    "library.html" = "library.html" ∧
    DocPages.data_library DemoPages.builtin_page = DocPages.data_library d ∧
    DocPages.library_collection_id d = "1" ∧
    Forall2 (DocPages.entry_of Demo.DocToHtml DemoPages.json_loads
               (DocPages.lib_doc_format DemoPages.builtin_libdoc) (Some "Log"))
            DemoPages.builtin_rows (DocPages.library_keywords d) ∧
    (Some "Log" = None →
     Forall (λ entry, DocPages.lk_target entry = false) (DocPages.library_keywords d)).
Proof.
  apply (doc_for_library_entries Demo.url_for Demo.DocToHtml "1.0"
           DemoPages.json_loads DemoPages.get_collection DemoPages.get_keyword_data
           DemoPages.get_keyword_hierarchy Demo.app "1" (Some "Log") Demo.kwdb
           DemoPages.builtin_libdoc DemoPages.builtin_rows).
  - reflexivity.
  - reflexivity.
  - reflexivity.
  - vm_compute. reflexivity.
Defined.

(** The hypotheses of [doc_for_library_converter_calls] hold for the page
    of the standard library of the example store. *)
Lemma doc_for_library_converter_calls_witness :
  Forall (λ c, ∃ text, text ≠ "" ∧
               c = Doc.DocToHtml_call
                     (DocPages.converter_format
                        (DocPages.lib_doc_format DemoPages.builtin_libdoc)) text)
         (DocPages.calls (DemoPages.doc_for_library "1" None)).
Proof.
  apply (doc_for_library_converter_calls Demo.url_for Demo.DocToHtml "1.0"
           DemoPages.json_loads DemoPages.get_collection DemoPages.get_keyword_data
           DemoPages.get_keyword_hierarchy Demo.app "1" None Demo.kwdb
           DemoPages.builtin_libdoc DemoPages.builtin_rows); reflexivity.
Defined.

(** The hypotheses of [doc_for_library_converter_failure] hold for the
    resource file of the example store, whose format the converter does not
    know. *)
Lemma doc_for_library_converter_failure_witness :
  status (DocPages.result (DemoPages.doc_for_library "3" None)) = 500.
Proof.
  apply (doc_for_library_converter_failure Demo.url_for Demo.DocToHtml "1.0"
           DemoPages.json_loads DemoPages.get_collection DemoPages.get_keyword_data
           DemoPages.get_keyword_hierarchy Demo.app "3" None Demo.kwdb
           DemoPages.my_lib_libdoc DemoPages.my_lib_rows
           (DocPages.KeywordDataRow "30" "Open Page" "[]" (Some "Opens the page."))
           (Exception "Invalid documentation format MD")).
  - reflexivity.
  - reflexivity.
  - reflexivity.
  - apply list_elem_of_here.
  - exact I.
  - reflexivity.
Defined.

(** The hypotheses of [doc_for_library_libdoc] hold for the page of the
    standard library of the example store. *)
Lemma doc_for_library_libdoc_witness :
  ∃ doc html,
    DemoPages.builtin_libdoc !! "doc" = Some doc ∧
    (if decide (DocPages.has_text doc)
     then Demo.DocToHtml
            (DocPages.converter_format
               (DocPages.lib_doc_format DemoPages.builtin_libdoc))
            (DocPages.text_of doc) = inr html
     else html = "") ∧
    DocPages.library_libdoc DemoPages.builtin_page !! "doc" = Some (Some html) ∧
    (∀ key, key ≠ "doc" →
       DocPages.library_libdoc DemoPages.builtin_page !! key
       = DemoPages.builtin_libdoc !! key) ∧
    DocPages.library_version DemoPages.builtin_page = "1.0".
Proof.
  apply (doc_for_library_libdoc Demo.url_for Demo.DocToHtml "1.0"
           DemoPages.json_loads DemoPages.get_collection DemoPages.get_keyword_data
           DemoPages.get_keyword_hierarchy Demo.app "1" (Some "Log") Demo.kwdb
           DemoPages.builtin_libdoc DemoPages.builtin_rows "library.html").
  - reflexivity.
  - reflexivity.
  - reflexivity.
  - vm_compute. reflexivity.
Defined.

(** The hypothesis of [pattern_parameter_normalised] holds for the example
    store: the answer for a pattern with capitals and surrounding blanks is
    built from what the store gives for the stripped, lower-cased text. *)
Lemma pattern_parameter_normalised_witness :
  ApiEndpoint.get_library_keywords Demo.url_for Demo.html_format Demo.app
    (<["pattern" := "  Click* "]> ∅) "2" =
  match kwdb_get_keywords Demo.kwdb "click*" with
  | inr kws =>
      Done (jsonify_keywords
              (ApiEndpoint.keyword_object Demo.url_for Demo.html_format ∅
                 <$> filter (ApiEndpoint.selected "2") kws))
  | inl e => Raise e
  end.
Proof.
  apply (pattern_parameter_normalised Demo.url_for Demo.html_format Demo.app
           ∅ "2" "  Click* " Demo.kwdb).
  reflexivity.
Defined.
